(** * n8n-openapi-node: from OpenAPI schemas to n8n node properties

    A shallow embedding of [src/n8n/SchemaToINodeProperties.ts] (the class
    [N8NINodeProperties] with its helpers [combine] and [findKey]) and of
    [sessionFirst] / [Parser.parseFields] of the parser, followed by the
    properties of the field compiler.

    Conventions of the embedding.
    - A JavaScript object used as a map (the [content] of a request body, the
      [properties] of a schema) is an association list in the order in which
      [Object.keys] and [for .. in] enumerate it.
    - A key that is absent and a key whose value is [undefined] are the same
      thing ([option], or [JUndefined] for a field of type [any]); this is
      also how [lodash.defaults] reads its sources.
    - [throw new Error(..)] is the [Err] case of the [Result] monad.
    - [lodash.startCase], [JSON.stringify] and the example extractor
      ([SchemaExample.extractExample]) are outside the embedded sources; the
      compiler is stated over any three such functions. *)

From Stdlib Require Import String List ZArith Bool Lia Permutation.
Import ListNotations.
Local Open Scope string_scope.
Local Open Scope list_scope.

Set Implicit Arguments.
Set Warnings "-register-all".

(** ** Values of the in-memory document *)

Inductive JsVal : Type :=
| JUndefined
| JNull
| JBool (b : bool)
| JNum (n : Z)   (* the numbers of the document are taken to be integers *)
| JStr (s : string)
| JArr (l : list JsVal)
| JObj (l : list (string * JsVal)).

(** [v !== undefined] *)
Definition isDefined (v : JsVal) : bool :=
  match v with JUndefined => false | _ => true end.

(** The truth value a JavaScript condition gives to [v]. *)
Definition truthy (v : JsVal) : bool :=
  match v with
  | JUndefined | JNull => false
  | JBool b => b
  | JNum n => negb (n =? 0)%Z
  | JStr s => negb (s =? "")
  | JArr _ | JObj _ => true
  end.

(** ** Errors *)

Inductive Error : Type :=
| BrokenReference (ref : string)
| UnsupportedParameterLocation (location : string)
    (* Unknown parameter location '${parameter.in}' *)
| UnsupportedBodyContentType
    (* No '${regexp}' or multipart/form-data content found *)
| UnsupportedBodySchema (type : option string)
    (* Request body schema type '${schema.type}' not supported *)
| MultipartSchemaMissingProperties.
    (* Multipart form data schema must have properties *)

Inductive Result (A : Type) : Type :=
| OK (a : A)
| Err (e : Error).
Arguments Err {A} e.

Definition bind {A B} (r : Result A) (k : A -> Result B) : Result B :=
  match r with
  | OK a => k a
  | Err e => Err e
  end.

Notation "x <- r ;; k" := (bind r (fun x => k))
  (at level 61, r at next level, right associativity).

(** A [for] loop that pushes one result per element and stops at the first
    exception. *)
Fixpoint mapM {A B} (f : A -> Result B) (l : list A) : Result (list B) :=
  match l with
  | [] => OK []
  | a :: l' => b <- f a ;; bs <- mapM f l' ;; OK (b :: bs)
  end.

(** ** OpenAPI document *)

Inductive RefOr (T : Type) : Type :=
| Ref (ref : string)
| Inline (t : T).
Arguments Ref {T} ref.

Module SchemaObject.
Inductive t : Type := mk {
    type : option string;
    example : JsVal;
    description : option string;
    enum : option (list JsVal);
    items : option (RefOr t);
    properties : option (list (string * RefOr t));
    required : option (list string);
    format : option string
  }.
End SchemaObject.

Definition Schema : Type := RefOr SchemaObject.t.

Module ParameterObject.
Record t : Type := mk {
    name : string;
    in_ : string;
    required : option bool;
    description : option string;
    example : JsVal;
    schema : Schema  (* [parameter.schema!!] *)
  }.
End ParameterObject.

Module MediaTypeObject.
Record t : Type := mk {
    schema : Schema  (* [content.schema!!] *)
  }.
End MediaTypeObject.

Module RequestBodyObject.
Record t : Type := mk {
    content : list (string * MediaTypeObject.t)
  }.
End RequestBodyObject.

Module Document.
  (** The component registries, keyed by the pointer string of a [$ref]. *)
Record t : Type := mk {
    schemas : string -> option SchemaObject.t;
    parameters : string -> option ParameterObject.t;
    requestBodies : string -> option RequestBodyObject.t
  }.
End Document.

Module RefResolver.
  (** Modelled from the spec: [RefResolver.resolve] ([src/openapi/RefResolver.ts]
      is not among the sources).  A reference is looked up in the registry of
      the document, anything else is returned unchanged; a pointer with no
      entry fails with [BrokenReference].  One look-up per call. *)
Definition resolve {T} (registry : string -> option T) (node : RefOr T)
    : Result T :=
    match node with
    | Inline t => OK t
    | Ref ref =>
        match registry ref with
        | Some t => OK t
        | None => Err (BrokenReference ref)
        end
    end.
End RefResolver.

(** ** n8n node properties *)

Inductive NodePropertyTypes : Type :=
| tBoolean   (* 'boolean' *)
| tString    (* 'string' *)
| tJson      (* 'json' *)
| tNumber    (* 'number' *)
| tOptions.  (* 'options' *)

Module INodePropertyOptions.
Record t : Type := mk {
    name : string;
    value : JsVal
  }.
End INodePropertyOptions.

(** [routing.request] of a field. *)
Inductive Routing : Type :=
| RequestQs (key value : string)        (* { qs: { [key]: value } } *)
| RequestHeaders (key value : string)   (* { headers: { [key]: value } } *)
| RequestBody (value : string)          (* { body: value } *)
| RequestBodyKey (key value : string).  (* { body: { [key]: value } } *)

Module TypeOptions.
Record t : Type := mk {
    isFilePath : option bool
  }.
End TypeOptions.

Module DisplayOptions.
  (** [{ show: { resource: [..], operation: [..] } }] *)
Record t : Type := mk {
    resource : list string;
    operation : list string
  }.
End DisplayOptions.

Module INodeProperties.
Record t : Type := mk {
    displayName : option string;
    name : option string;
    type : option NodePropertyTypes;
    default : JsVal;
    description : option string;
    options : option (list INodePropertyOptions.t);
    required : option bool;
    routing : option Routing;
    typeOptions : option TypeOptions.t;
    displayOptions : option DisplayOptions.t
  }.

  (** [{}] *)
Definition empty : t :=
    mk None None None JUndefined None None None None None None.

Definition set_type (v : option NodePropertyTypes) (f : t) : t :=
    mk (displayName f) (name f) v (default f) (description f) (options f)
       (required f) (routing f) (typeOptions f) (displayOptions f).
Definition set_default (v : JsVal) (f : t) : t :=
    mk (displayName f) (name f) (type f) v (description f) (options f)
       (required f) (routing f) (typeOptions f) (displayOptions f).
Definition set_options (v : option (list INodePropertyOptions.t)) (f : t) : t :=
    mk (displayName f) (name f) (type f) (default f) (description f) v
       (required f) (routing f) (typeOptions f) (displayOptions f).
Definition set_required (v : option bool) (f : t) : t :=
    mk (displayName f) (name f) (type f) (default f) (description f) (options f)
       v (routing f) (typeOptions f) (displayOptions f).
Definition set_routing (v : option Routing) (f : t) : t :=
    mk (displayName f) (name f) (type f) (default f) (description f) (options f)
       (required f) v (typeOptions f) (displayOptions f).
Definition set_typeOptions (v : option TypeOptions.t) (f : t) : t :=
    mk (displayName f) (name f) (type f) (default f) (description f) (options f)
       (required f) (routing f) v (displayOptions f).
Definition set_displayOptions (v : option DisplayOptions.t) (f : t) : t :=
    mk (displayName f) (name f) (type f) (default f) (description f) (options f)
       (required f) (routing f) (typeOptions f) v.
End INodeProperties.

Import INodeProperties.

(** ** lodash.defaults and [combine] *)

Definition orElse {A} (a b : option A) : option A :=
  match a with Some _ => a | None => b end.

Definition orElseJs (a b : JsVal) : JsVal :=
  if isDefined a then a else b.

(** One source of [lodash.defaults(obj, src)]: every property of [obj] that
    resolves to [undefined] takes the value [src] has for it. *)
Definition assignDefaults (obj src : INodeProperties.t) : INodeProperties.t :=
  INodeProperties.mk
    (orElse (displayName obj) (displayName src))
    (orElse (name obj) (name src))
    (orElse (type obj) (type src))
    (orElseJs (default obj) (default src))
    (orElse (description obj) (description src))
    (orElse (options obj) (options src))
    (orElse (required obj) (required src))
    (orElse (routing obj) (routing src))
    (orElse (typeOptions obj) (typeOptions src))
    (orElse (displayOptions obj) (displayOptions src)).

(** [if (!obj.required) delete obj.required] *)
Definition dropFalsyRequired (obj : INodeProperties.t) : INodeProperties.t :=
  match required obj with
  | Some true => obj
  | _ => set_required None obj
  end.

Definition combine (sources : list INodeProperties.t) : INodeProperties.t :=
  let obj := fold_left assignDefaults sources INodeProperties.empty in
  dropFalsyRequired obj.

(** [regexp.test(key)] for [/application\/json.*/]: the pattern is not
    anchored and [.*] matches the empty string, so the test is whether the
    key has "application/json" somewhere in it. *)
Fixpoint includes (needle s : string) : bool :=
  String.prefix needle s ||
  match s with
  | EmptyString => false
  | String _ s' => includes needle s'
  end.

Definition isJsonKey (key : string) : bool := includes "application/json" key.

(** [findKey]: the value of the first key the test accepts. *)
Definition findKey {A} (obj : list (string * A)) (test : string -> bool)
  : option A :=
  match find (fun kv => test (fst kv)) obj with
  | Some kv => Some (snd kv)
  | None => None
  end.

(** [obj[key]] *)
Fixpoint lookup {A} (key : string) (obj : list (string * A)) : option A :=
  match obj with
  | [] => None
  | (k, a) :: obj' => if k =? key then Some a else lookup key obj'
  end.

(** ** The field compiler: [class N8NINodeProperties] *)

Section N8NINodeProperties.

(** [lodash.startCase], applied to names and to enumeration values. *)
Variable startCase : JsVal -> string.
(** [JSON.stringify(value, null, 2)] *)
Variable stringify : JsVal -> string.
(** [this.schemaExample.extractExample]: [JUndefined] when the schema has no
    example to offer. *)
Variable extractExample : SchemaObject.t -> JsVal.
(** The document the class was constructed with. *)
Variable doc : Document.t.

Definition resolveSchema : Schema -> Result SchemaObject.t :=
  RefResolver.resolve (Document.schemas doc).

Definition typeIs (type : option string) (literal : string) : bool :=
  match type with
  | Some t => t =? literal
  | None => false
  end.

(** The [switch (schema.type)] of [fromSchema]: the field type and the
    default, from the schema type and the extracted example.  A type outside
    the seven cases leaves [type] unassigned and the example as it is. *)
Definition mapType (type : option string) (defaultValue : JsVal)
  : option NodePropertyTypes * JsVal :=
  match type with
  | None =>
      (Some tString, if isDefined defaultValue then defaultValue else JStr "")
  | Some t =>
      if t =? "boolean" then
        (Some tBoolean, if isDefined defaultValue then defaultValue else JBool true)
      else if t =? "string" then
        (Some tString, if isDefined defaultValue then defaultValue else JStr "")
      else if t =? "object" then
        (Some tJson,
         if isDefined defaultValue then JStr (stringify defaultValue) else JStr "{}")
      else if t =? "array" then
        (Some tJson,
         if isDefined defaultValue then JStr (stringify defaultValue) else JStr "[]")
      else if (t =? "number") || (t =? "integer") then
        (Some tNumber, if isDefined defaultValue then defaultValue else JNum 0)
      else
        (None, defaultValue)
  end.

(** [schema.enum.map(value => ({name: lodash.startCase(value), value}))] *)
Definition enumOptions (values : list JsVal) : list INodePropertyOptions.t :=
  map (fun value => INodePropertyOptions.mk (startCase value) value) values.

(** [fromSchema] once the schema is resolved. *)
Definition fromSchemaObject (schema : SchemaObject.t) : INodeProperties.t :=
  let defaultValue := extractExample schema in
  let '(type, defaultValue) := mapType (SchemaObject.type schema) defaultValue in
  let field :=
    INodeProperties.mk None None type defaultValue
      (SchemaObject.description schema) None None None None None in
  match SchemaObject.enum schema with
  | Some (first :: rest) =>
      let field := set_type (Some tOptions) field in
      let field := set_options (Some (enumOptions (first :: rest))) field in
      set_default (if truthy (default field) then default field else first) field
  | _ => field
  end.

Definition fromSchema (schema : Schema) : Result INodeProperties.t :=
  schema <- resolveSchema schema ;;
  OK (fromSchemaObject schema).

Definition valueExpr : string := "={{ $value }}".
Definition jsonParseExpr : string := "={{ JSON.parse($value) }}".
Definition binaryExpr : string := "={{ $binary[$value] }}".

Definition fromParameter (parameter : RefOr ParameterObject.t)
  : Result INodeProperties.t :=
  parameter <- RefResolver.resolve (Document.parameters doc) parameter ;;
  fieldSchemaKeys <- fromSchema (ParameterObject.schema parameter) ;;
  let name := ParameterObject.name parameter in
  let fieldParameterKeys :=
    INodeProperties.mk
      (Some (startCase (JStr name)))
      (Some name)
      None
      (ParameterObject.example parameter)
      (ParameterObject.description parameter)
      None
      (ParameterObject.required parameter)
      None None None in
  let field := combine [fieldParameterKeys; fieldSchemaKeys] in
  let location := ParameterObject.in_ parameter in
  field <-
    (if location =? "query" then
       OK (set_routing (Some (RequestQs name valueExpr)) field)
     else if location =? "path" then
       OK (set_required (Some true) field)
     else if location =? "header" then
       OK (set_routing (Some (RequestHeaders name valueExpr)) field)
     else
       Err (UnsupportedParameterLocation location)) ;;
  OK (dropFalsyRequired field).

Definition fromParameters (parameters : option (list (RefOr ParameterObject.t)))
  : Result (list INodeProperties.t) :=
  match parameters with
  | None => OK []
  | Some parameters => mapM fromParameter parameters
  end.

Definition fromSchemaProperty (name : string) (property : Schema)
  : Result INodeProperties.t :=
  fieldSchemaKeys <- fromSchema property ;;
  let fieldParameterKeys :=
    INodeProperties.mk (Some (startCase (JStr name))) (Some name)
      None JUndefined None None None None None None in
  OK (combine [fieldParameterKeys; fieldSchemaKeys]).

(** [{ required: .. }] *)
Definition requiredOnly (required : option bool) : INodeProperties.t :=
  set_required required INodeProperties.empty.

(** [schema.required?.includes(key)], which is also the value of
    [schema.required && schema.required?.includes(key)] when [required] is a
    list or undefined. *)
Definition requiredIncludes (schema : SchemaObject.t) (key : string)
  : option bool :=
  match SchemaObject.required schema with
  | Some names => Some (existsb (String.eqb key) names)
  | None => None
  end.

(** [!!schema.required] *)
Definition hasRequired (schema : SchemaObject.t) : bool :=
  match SchemaObject.required schema with
  | Some _ => true
  | None => false
  end.

(** The entries [for (const key in properties)] runs over. *)
Definition propertiesOf (schema : SchemaObject.t) : list (string * Schema) :=
  match SchemaObject.properties schema with
  | Some properties => properties
  | None => []
  end.

(** Lines 225-274. *)
Definition fromMultipartFormData (content : MediaTypeObject.t)
  : Result (list INodeProperties.t) :=
  schema <- resolveSchema (MediaTypeObject.schema content) ;;
  match SchemaObject.properties schema with
  | None => Err MultipartSchemaMissingProperties
  | Some properties =>
      mapM (fun '(key, property) =>
              resolvedProperty <- resolveSchema property ;;
              fieldPropertyKeys <- fromSchemaProperty key (Inline resolvedProperty) ;;
              let fieldDefaults := requiredOnly (requiredIncludes schema key) in
              let field := combine [fieldDefaults; fieldPropertyKeys] in
              OK (if typeIs (SchemaObject.format resolvedProperty) "binary" then
                    let field := set_type (Some tString) field in
                    let field :=
                      set_typeOptions (Some (TypeOptions.mk (Some true))) field in
                    set_routing (Some (RequestBodyKey key binaryExpr)) field
                  else
                    set_routing (Some (RequestBodyKey key valueExpr)) field))
           properties
  end.

(** Lines 179-192: the field of an array body. *)
Definition arrayBodyFields (schema : SchemaObject.t)
  : Result (list INodeProperties.t) :=
  match SchemaObject.items schema with
  | Some items =>
      if typeIs (SchemaObject.type schema) "array" then
        innerSchema <- resolveSchema items ;;
        fieldPropertyKeys <- fromSchemaProperty "body" (Inline innerSchema) ;;
        let fieldDefaults := requiredOnly (Some (hasRequired schema)) in
        let field := combine [fieldDefaults; fieldPropertyKeys] in
        OK [set_routing (Some (RequestBody jsonParseExpr)) field]
      else OK []
  | None => OK []
  end.

(** Lines 195-221: one field per property. *)
Definition propertyFields (schema : SchemaObject.t)
  : Result (list INodeProperties.t) :=
  mapM (fun '(key, property) =>
          fieldPropertyKeys <- fromSchemaProperty key property ;;
          let fieldDefaults := requiredOnly (requiredIncludes schema key) in
          let field := combine [fieldDefaults; fieldPropertyKeys] in
          OK (match type field with
              | Some tJson => set_routing (Some (RequestBodyKey key jsonParseExpr)) field
              | _ => set_routing (Some (RequestBodyKey key valueExpr)) field
              end))
       (propertiesOf schema).

(** Lines 172-222: the JSON branch of [fromRequestBody], from the content
    [findKey] selected. *)
Definition fromJsonContent (content : MediaTypeObject.t)
  : Result (list INodeProperties.t) :=
  schema <- resolveSchema (MediaTypeObject.schema content) ;;
  _ <- match SchemaObject.properties schema with
       | None =>
           if negb (typeIs (SchemaObject.type schema) "object")
              && negb (typeIs (SchemaObject.type schema) "array")
           then Err (UnsupportedBodySchema (SchemaObject.type schema))
           else OK tt
       | Some _ => OK tt
       end ;;
  arrayFields <- arrayBodyFields schema ;;
  fields <- propertyFields schema ;;
  OK (arrayFields ++ fields).

Definition fromRequestBody (body : option (RefOr RequestBodyObject.t))
  : Result (list INodeProperties.t) :=
  match body with
  | None => OK []
  | Some body =>
      body <- RefResolver.resolve (Document.requestBodies doc) body ;;
      match lookup "multipart/form-data" (RequestBodyObject.content body) with
      | Some multipartContent => fromMultipartFormData multipartContent
      | None =>
          match findKey (RequestBodyObject.content body) isJsonKey with
          | None => Err UnsupportedBodyContentType
          | Some content => fromJsonContent content
          end
      end
  end.

End N8NINodeProperties.

(** ** The parser: [sessionFirst] and [Parser.parseFields] *)

Module OperationObject.
Record t : Type := mk {
  parameters : option (list (RefOr ParameterObject.t));
  requestBody : option (RefOr RequestBodyObject.t)
}.
End OperationObject.

Definition isSession (a : INodeProperties.t) : bool :=
  match name a with
  | Some n => n =? "session"
  | None => false
  end.

Definition sessionFirst (a b : INodeProperties.t) : Z :=
  if isSession a then (-1)%Z
  else if isSession b then 1%Z
  else 0%Z.

(** [Array.prototype.sort(comparefn)].  The language requires the sort to be
    stable and leaves the algorithm to the engine; the embedding takes the
    stable insertion sort: an element goes before the first element of the
    sorted rest that [comparefn] does not put before it. *)
Fixpoint insertSorted {A} (comparefn : A -> A -> Z) (x : A) (sorted : list A)
  : list A :=
  match sorted with
  | [] => [x]
  | y :: rest =>
      if (comparefn x y <=? 0)%Z then x :: y :: rest
      else y :: insertSorted comparefn x rest
  end.

Fixpoint sort {A} (comparefn : A -> A -> Z) (l : list A) : list A :=
  match l with
  | [] => []
  | x :: l' => insertSorted comparefn x (sort comparefn l')
  end.

Section Parser.

Variable startCase : JsVal -> string.
Variable stringify : JsVal -> string.
Variable extractExample : SchemaObject.t -> JsVal.
Variable doc : Document.t.

(** The [displayOptions] every field of one operation receives. *)
Definition showFor (resourceName operationName : string) : DisplayOptions.t :=
  DisplayOptions.mk [resourceName] [operationName].

Definition parseFields (resourceName operationName : string)
  (operation : OperationObject.t) : Result (list INodeProperties.t) :=
  parameterFields <-
    fromParameters startCase stringify extractExample doc
      (OperationObject.parameters operation) ;;
  bodyFields <-
    fromRequestBody startCase stringify extractExample doc
      (OperationObject.requestBody operation) ;;
  let fields := parameterFields ++ bodyFields in
  let displayOptions := showFor resourceName operationName in
  let fields := map (set_displayOptions (Some displayOptions)) fields in
  OK (sort sessionFirst fields).

End Parser.

(** ** A host for the closed examples

    The closed examples need some [startCase], [stringify] and example
    extractor to run the compiler on a concrete document.  None of the
    schemas in them has properties with examples, so the extractor answers
    with the example the schema declares; the two library functions only
    show up in display names and in the text of declared examples. *)

Module Sample.
Definition startCase (v : JsVal) : string :=
  match v with JStr s => s | _ => "" end.
Definition stringify (v : JsVal) : string :=
  match v with JStr s => s | _ => "" end.
Definition extractExample (s : SchemaObject.t) : JsVal := SchemaObject.example s.

(** [{ type: type }] *)
Definition typed (type : string) : SchemaObject.t :=
  SchemaObject.mk (Some type) JUndefined None None None None None None.

(** A document whose only component is the string schema [Name]. *)
Definition doc : Document.t :=
  Document.mk
    (fun ref =>
       if ref =? "#/components/schemas/Name" then Some (typed "string") else None)
    (fun _ => None) (fun _ => None).

(** [{ type: 'string', enum: ['a', 'b'] }] *)
Definition enumString : SchemaObject.t :=
  SchemaObject.mk (Some "string") JUndefined None (Some [JStr "a"; JStr "b"])
    None None None None.

(** [{ type: 'boolean', enum: [false, true] }] *)
Definition enumBoolean : SchemaObject.t :=
  SchemaObject.mk (Some "boolean") JUndefined None (Some [JBool false; JBool true])
    None None None None.

(** [{ name: 'id', in: 'path', required: false, schema: { type: 'string' } }] *)
Definition idParameter : ParameterObject.t :=
  ParameterObject.mk "id" "path" (Some false) None JUndefined
    (Inline (typed "string")).

(** [{ name: 'limit', in: 'query', example: 10, schema: { type: 'integer' } }] *)
Definition limitParameter : ParameterObject.t :=
  ParameterObject.mk "limit" "query" None None (JNum 10)
    (Inline (typed "integer")).

(** [{ name: 'session', in: 'query', schema: { type: 'string' } }] *)
Definition sessionParameter : ParameterObject.t :=
  ParameterObject.mk "session" "query" None None JUndefined
    (Inline (typed "string")).

(** [{ name: 'token', in: 'cookie', schema: { type: 'string' } }] *)
Definition cookieParameter : ParameterObject.t :=
  ParameterObject.mk "token" "cookie" None None JUndefined
    (Inline (typed "string")).

Definition media (schema : SchemaObject.t) : MediaTypeObject.t :=
  MediaTypeObject.mk (Inline schema).

(** [{ type: 'object', required: ['name'],
       properties: { name: { $ref: '#/components/schemas/Name' },
                     active: { type: 'boolean' } } }] *)
Definition personSchema : SchemaObject.t :=
  SchemaObject.mk (Some "object") JUndefined None None None
    (Some [("name", Ref "#/components/schemas/Name");
           ("active", Inline (typed "boolean"))])
    (Some ["name"]) None.

(** [{ type: 'array', items: { type: 'string' } }] *)
Definition stringArraySchema : SchemaObject.t :=
  SchemaObject.mk (Some "array") JUndefined None None
    (Some (Inline (typed "string"))) None None None.

(** [{ type: 'array' }] *)
Definition bareArraySchema : SchemaObject.t := typed "array".

(** [{ type: 'string', format: 'binary' }] *)
Definition binarySchema : SchemaObject.t :=
  SchemaObject.mk (Some "string") JUndefined None None None None None
    (Some "binary").

(** [{ type: 'object',
       properties: { file: { type: 'string', format: 'binary' },
                     note: { type: 'string' } } }] *)
Definition uploadSchema : SchemaObject.t :=
  SchemaObject.mk (Some "object") JUndefined None None None
    (Some [("file", Inline binarySchema); ("note", Inline (typed "string"))])
    None None.

Definition jsonBody (schema : SchemaObject.t) : RequestBodyObject.t :=
  RequestBodyObject.mk [("application/json", media schema)].

(** A body offering plain text and two JSON flavours. *)
Definition mixedBody : RequestBodyObject.t :=
  RequestBodyObject.mk
    [("text/plain", media (typed "string"));
     ("application/json; charset=utf-8", media personSchema);
     ("application/json", media stringArraySchema)].

(** A body offering JSON and, after it, multipart form data. *)
Definition uploadBody : RequestBodyObject.t :=
  RequestBodyObject.mk
    [("application/json", media personSchema);
     ("multipart/form-data", media uploadSchema)].

(** A body offering XML only. *)
Definition xmlBody : RequestBodyObject.t :=
  RequestBodyObject.mk [("application/xml", media personSchema)].

(** An operation with the parameters [limit], [session] and [id], and the
    person body. *)
Definition operation : OperationObject.t :=
  OperationObject.mk
    (Some [Inline limitParameter; Inline sessionParameter; Inline idParameter])
    (Some (Inline (jsonBody personSchema))).
End Sample.


(** ** The parser: [replaceToParameter] and [Parser.parseOperation] *)

Import Ascii.

(** The double quote character. *)
Definition dquote : Ascii.ascii := Ascii.ascii_of_nat 34.

(** The replacement text for a placeholder named [name]: the name between
    [{{$parameter[] and []}}], in double quotes. *)
Definition parameterExpr (name : string) : string :=
  ("{{$parameter[" ++ String dquote (name ++ String dquote "]}}"))%string.

(** The global [uri.replace] of line 19, whose pattern is an opening brace,
    any run of characters other than a closing brace (the group), and a
    closing brace; read from left to right.  [inside] is
    [None] outside a placeholder and holds the text read since the opening
    brace inside one; a match runs from an opening brace to the first
    closing brace after it, and an opening brace that is never closed
    matches nothing and stays as it is. *)
Fixpoint replaceFrom (inside : option string) (uri : string) : string :=
  match uri with
  | EmptyString =>
      match inside with
      | None => EmptyString
      | Some name => String "{"%char name
      end
  | String c rest =>
      match inside with
      | None =>
          if Ascii.eqb c "{"%char then replaceFrom (Some EmptyString) rest
          else String c (replaceFrom None rest)
      | Some name =>
          if Ascii.eqb c "}"%char then (parameterExpr name ++ replaceFrom None rest)%string
          else replaceFrom (Some (name ++ String c EmptyString)%string) rest
      end
  end.

Definition replaceToParameter (uri : string) : string := replaceFrom None uri.

(** [s.split(sep)] for a separator of one character; [current] is the part
    being read. *)
Fixpoint splitFrom (sep : Ascii.ascii) (current s : string) : list string :=
  match s with
  | EmptyString => [current]
  | String c rest =>
      if Ascii.eqb c sep then current :: splitFrom sep EmptyString rest
      else splitFrom sep (current ++ String c EmptyString)%string rest
  end.

Definition split (sep : Ascii.ascii) (s : string) : list string :=
  splitFrom sep EmptyString s.

(** [parts.join(sep)] *)
Fixpoint join (sep : string) (parts : list string) : string :=
  match parts with
  | [] => EmptyString
  | [part] => part
  | part :: rest => (part ++ sep ++ join sep rest)%string
  end.

(** Lines 110-113: the operation id without its first segment, or the whole
    id when nothing is left. *)
Definition shortOperationId (operationId : string) : string :=
  let short := join "_" (skipn 1 (split "_"%char operationId)) in
  if short =? "" then operationId else short.

(** [a || b] for an optional string: the empty string is falsy. *)
Definition orString (a : option string) (b : string) : string :=
  match a with
  | Some s => if s =? "" then b else s
  | None => b
  end.

Module OperationDetails.
(** The keys of an operation object [parseOperation] reads, around those
    [parseFields] reads. *)
Record t : Type := mk {
  operationId : string;  (* [operation.operationId!!] *)
  summary : option string;
  description : option string;
  operation : OperationObject.t
}.
End OperationDetails.

Module OperationOption.
(** The option of the operation selector; [method] and [url] are those of
    [routing.request]. *)
Record t : Type := mk {
  name : string;
  value : string;
  action : string;
  description : string;
  method : string;
  url : string
}.
End OperationOption.

Module NoticeField.
(** The informational field put in front of the fields of an operation. *)
Record t : Type := mk {
  displayName : string;
  name : string;
  type : string;
  theme : string;  (* [typeOptions.theme] *)
  displayOptions : DisplayOptions.t;
  default : string
}.
End NoticeField.

(** An element of the [fields] array [parseOperation] returns. *)
Inductive OperationField : Type :=
| Notice (notice : NoticeField.t)
| Compiled (field : INodeProperties.t).

(** [field.displayOptions] of an element. *)
Definition displayOptionsOf (field : OperationField) : option DisplayOptions.t :=
  match field with
  | Notice notice => Some (NoticeField.displayOptions notice)
  | Compiled f => displayOptions f
  end.

Section ParseOperation.

Variable startCase : JsVal -> string.
Variable stringify : JsVal -> string.
Variable extractExample : SchemaObject.t -> JsVal.
Variable doc : Document.t.
(** [String.prototype.toUpperCase] *)
Variable toUpperCase : string -> string.
(** [this.addUriAfterOperation] *)
Variable addUriAfterOperation : bool.

Definition parseOperation (resourceName : string)
  (operation : OperationDetails.t) (uri method : string)
  : Result (OperationOption.t * list OperationField) :=
  let operationId := shortOperationId (OperationDetails.operationId operation) in
  let operationName := startCase (JStr operationId) in
  let description :=
    orString (OperationDetails.description operation)
      (orString (OperationDetails.summary operation) "") in
  let option :=
    OperationOption.mk operationName operationName
      (orString (OperationDetails.summary operation) operationName)
      description
      (toUpperCase method)
      ("=" ++ replaceToParameter uri)%string in
  fields <-
    parseFields startCase stringify extractExample doc resourceName operationName
      (OperationDetails.operation operation) ;;
  let fields := map Compiled fields in
  let fields :=
    if addUriAfterOperation then
      Notice (NoticeField.mk (toUpperCase method ++ " " ++ uri)%string
                "operation" "notice" "info"
                (DisplayOptions.mk [resourceName] [operationName]) "")
      :: fields
    else fields in
  OK (option, fields).

End ParseOperation.

(** ** More sample data *)

Module SampleParser.
(** ASCII upper case, enough for the method names of the examples. *)
Definition upper (c : Ascii.ascii) : Ascii.ascii :=
  let n := Ascii.nat_of_ascii c in
  if (97 <=? n)%nat && (n <=? 122)%nat then Ascii.ascii_of_nat (n - 32) else c.

Fixpoint toUpperCase (s : string) : string :=
  match s with
  | EmptyString => EmptyString
  | String c rest => String (upper c) (toUpperCase rest)
  end.

(** The operation [Pets_create_one] over the sample operation. *)
Definition createOne : OperationDetails.t :=
  OperationDetails.mk "Pets_create_one" (Some "Create a pet") (Some "")
    Sample.operation.

(** [{ type: 'null' }], a type the [switch] of [fromSchema] has no case for. *)
Definition nullSchema : SchemaObject.t := Sample.typed "null".


(** [{ type: 'object', example: {} }] *)
Definition exampleObject : SchemaObject.t :=
  SchemaObject.mk (Some "object") (JObj []) None None None None None None.

(** The sample operation without its [session] parameter. *)
Definition plainOperation : OperationObject.t :=
  OperationObject.mk
    (Some [Inline Sample.limitParameter; Inline Sample.idParameter])
    (Some (Inline (Sample.jsonBody Sample.personSchema))).

(** Parameters of which the second has an unknown location and the third
    does not resolve. *)
Definition badParameters : list (RefOr ParameterObject.t) :=
  [Inline Sample.limitParameter; Inline Sample.cookieParameter;
   Ref "#/components/parameters/missing"].
End SampleParser.

(** ** Sample bodies with unusual content *)

Module SampleBodies.
(** A body whose first label only contains the JSON media type, in front of
    the JSON label itself. *)
Definition sequenceBody : RequestBodyObject.t :=
  RequestBodyObject.mk
    [("text/x-application/json-seq", Sample.media Sample.personSchema);
     ("application/json", Sample.media Sample.stringArraySchema)].

(** A body with that first label alone. *)
Definition sequenceOnlyBody : RequestBodyObject.t :=
  RequestBodyObject.mk
    [("text/x-application/json-seq", Sample.media Sample.personSchema)].

End SampleBodies.

(** ** Vocabulary of the statements *)

(** The character [c] occurs in [s]. *)
Fixpoint occurs (c : Ascii.ascii) (s : string) : Prop :=
  match s with
  | EmptyString => False
  | String c' rest => c' = c \/ occurs c rest
  end.

(** The fields of an operation are shown for the resource and the operation
    named [operationName]. *)
Definition shownFor (resourceName operationName : string)
  (field : OperationField) : Prop :=
  displayOptionsOf field =
  Some (DisplayOptions.mk [resourceName] [operationName]).

(** [required] is [true] or absent. *)
Definition requiredOrAbsent (f : INodeProperties.t) : Prop :=
  required f = Some true \/ required f = None.










(** * Properties *)

(** ** The error monad and the loops *)

Lemma bind_OK {A B} (r : Result A) (k : A -> Result B) (b : B) :
  bind r k = OK b -> exists a, r = OK a /\ k a = OK b.
Proof.
  destruct r as [a | e]; simpl; intros H.
  - exists a. split; [reflexivity | exact H].
  - discriminate H.
Qed.

(** A loop whose body succeeds on every element yields one result per
    element, in order. *)
Lemma mapM_Forall2 {A B} (f : A -> Result B) (R : A -> B -> Prop) (l : list A) :
  (forall a, In a l -> exists b, f a = OK b /\ R a b) ->
  exists bs, mapM f l = OK bs /\ Forall2 R l bs.
Proof.
  induction l as [| a l IH]; intros Hall.
  - exists []. split; [reflexivity | constructor].
  - destruct (Hall a (or_introl eq_refl)) as [b [Hb HR]].
    destruct IH as [bs [Hbs HF]].
    { intros a' Ha'. apply Hall. right. exact Ha'. }
    exists (b :: bs). simpl. rewrite Hb. simpl. rewrite Hbs. simpl.
    split; [reflexivity | constructor; assumption].
Qed.

(** ** [findKey] and [lookup] *)

Lemma findKey_first {A} (obj : list (string * A)) (test : string -> bool) (a : A) :
  findKey obj test = Some a ->
  exists before key after,
    obj = before ++ (key, a) :: after /\
    test key = true /\
    forall kv, In kv before -> test (fst kv) = false.
Proof.
  unfold findKey. induction obj as [| [k v] obj IH]; simpl; intros H.
  - discriminate H.
  - destruct (test k) eqn:Hk.
    + inversion H; subst. exists [], k, obj. simpl.
      repeat split; [exact Hk | intros kv []].
    + destruct (IH H) as [before [key [after [Heq [Hkey Hbefore]]]]].
      exists ((k, v) :: before), key, after. simpl. rewrite Heq.
      repeat split; [exact Hkey |].
      intros kv [<- | Hin]; [exact Hk | apply Hbefore; exact Hin].
Qed.

Lemma findKey_none {A} (obj : list (string * A)) (test : string -> bool) :
  findKey obj test = None <-> forall kv, In kv obj -> test (fst kv) = false.
Proof.
  unfold findKey. induction obj as [| [k v] obj IH]; simpl.
  - split; [intros _ kv [] | reflexivity].
  - destruct (test k) eqn:Hk.
    + split; [discriminate |].
      intros H. specialize (H (k, v) (or_introl eq_refl)). simpl in H. congruence.
    + rewrite IH. split.
      * intros H kv [<- | Hin]; [exact Hk | apply H; exact Hin].
      * intros H kv Hin. apply H. right. exact Hin.
Qed.

Lemma lookup_none {A} (key : string) (obj : list (string * A)) :
  lookup key obj = None <-> forall kv, In kv obj -> fst kv <> key.
Proof.
  induction obj as [| [k v] obj IH]; simpl.
  - split; [intros _ kv [] | reflexivity].
  - destruct (String.eqb_spec k key) as [-> | Hne].
    + split; [discriminate |].
      intros H. exfalso. apply (H (key, v)); [left |]; reflexivity.
    + rewrite IH. split.
      * intros H kv [<- | Hin]; [exact Hne | apply H; exact Hin].
      * intros H kv Hin. apply H. right. exact Hin.
Qed.

(** ** [fromSchema] *)

Section FromSchemaFacts.

Variable startCase : JsVal -> string.
Variable stringify : JsVal -> string.
Variable extractExample : SchemaObject.t -> JsVal.
Variable doc : Document.t.

Local Abbreviation fromSchemaObject' :=
  (fromSchemaObject startCase stringify extractExample).
Local Abbreviation fromSchema' :=
  (fromSchema startCase stringify extractExample doc).

(** What [fromSchema] leaves unset. *)
Lemma fromSchemaObject_unset (s : SchemaObject.t) :
  displayName (fromSchemaObject' s) = None /\
  name (fromSchemaObject' s) = None /\
  required (fromSchemaObject' s) = None /\
  routing (fromSchemaObject' s) = None /\
  typeOptions (fromSchemaObject' s) = None /\
  displayOptions (fromSchemaObject' s) = None.
Proof.
  unfold fromSchemaObject.
  destruct (mapType stringify (SchemaObject.type s) (extractExample s)) as [ty d].
  destruct (SchemaObject.enum s) as [[| first rest] |]; repeat split.
Qed.

Lemma fromSchema_resolved (schema : Schema) (s : SchemaObject.t) :
  resolveSchema doc schema = OK s ->
  fromSchema' schema = OK (fromSchemaObject' s).
Proof.
  intros H. unfold fromSchema. rewrite H. reflexivity.
Qed.

(** Without an enumeration the field is what the [switch] produced. *)
Lemma fromSchemaObject_plain (s : SchemaObject.t) :
  SchemaObject.enum s = None \/ SchemaObject.enum s = Some [] ->
  type (fromSchemaObject' s) =
    fst (mapType stringify (SchemaObject.type s) (extractExample s)) /\
  default (fromSchemaObject' s) =
    snd (mapType stringify (SchemaObject.type s) (extractExample s)) /\
  options (fromSchemaObject' s) = None /\
  description (fromSchemaObject' s) = SchemaObject.description s.
Proof.
  intros Henum. unfold fromSchemaObject.
  destruct (mapType stringify (SchemaObject.type s) (extractExample s)) as [ty d].
  destruct Henum as [-> | ->]; repeat split.
Qed.

(** With a non-empty enumeration the field is an options field: one option
    per value, in order, labelled by [startCase]; the default is the default
    of the [switch] when that is truthy and the first value otherwise. *)
Lemma fromSchemaObject_enum (s : SchemaObject.t) (first : JsVal) (rest : list JsVal) :
  SchemaObject.enum s = Some (first :: rest) ->
  let d := snd (mapType stringify (SchemaObject.type s) (extractExample s)) in
  type (fromSchemaObject' s) = Some tOptions /\
  options (fromSchemaObject' s) =
    Some (map (fun v => INodePropertyOptions.mk (startCase v) v) (first :: rest)) /\
  default (fromSchemaObject' s) = (if truthy d then d else first) /\
  description (fromSchemaObject' s) = SchemaObject.description s.
Proof.
  intros Henum. unfold fromSchemaObject.
  destruct (mapType stringify (SchemaObject.type s) (extractExample s)) as [ty d].
  rewrite Henum. simpl. repeat split.
Qed.

(** C1 (as amended): a schema of one of the seven kinds that offers no
    example and has no non-empty enumeration compiles to the field kind and
    default of the type-mapping table: boolean gives a boolean field with
    default [true]; string or an unspecified type a string field with
    default [""]; object a json field with default ["{}"]; array a json field
    with default ["[]"]; number or integer a number field with default [0]. *)
Theorem fromSchema_type_mapping (schema : Schema) (s : SchemaObject.t) :
  resolveSchema doc schema = OK s ->
  extractExample s = JUndefined ->
  SchemaObject.enum s = None \/ SchemaObject.enum s = Some [] ->
  exists f,
    fromSchema' schema = OK f /\
    options f = None /\
    (SchemaObject.type s = Some "boolean" ->
       type f = Some tBoolean /\ default f = JBool true) /\
    (SchemaObject.type s = Some "string" \/ SchemaObject.type s = None ->
       type f = Some tString /\ default f = JStr "") /\
    (SchemaObject.type s = Some "object" ->
       type f = Some tJson /\ default f = JStr "{}") /\
    (SchemaObject.type s = Some "array" ->
       type f = Some tJson /\ default f = JStr "[]") /\
    (SchemaObject.type s = Some "number" \/ SchemaObject.type s = Some "integer" ->
       type f = Some tNumber /\ default f = JNum 0).
Proof.
  intros Hres Hex Henum.
  exists (fromSchemaObject' s).
  split; [apply fromSchema_resolved; exact Hres |].
  destruct (fromSchemaObject_plain s Henum) as [Hty [Hdef [Hopt _]]].
  rewrite Hty, Hdef, Hex. split; [exact Hopt |].
  repeat apply conj;
    (intros [-> | ->] || intros ->); split; reflexivity.
Qed.

(** The enumerated schemas the table is right about: with no example and a
    kind whose table default is falsy (string, unspecified, number, integer)
    the default of the options field is the first enumerated value. *)
Lemma fromSchema_enum_default_first (s : SchemaObject.t) (first : JsVal) (rest : list JsVal) :
  SchemaObject.enum s = Some (first :: rest) ->
  extractExample s = JUndefined ->
  SchemaObject.type s = None \/ SchemaObject.type s = Some "string" \/
  SchemaObject.type s = Some "number" \/ SchemaObject.type s = Some "integer" ->
  default (fromSchemaObject' s) = first.
Proof.
  intros Henum Hex Hty.
  destruct (fromSchemaObject_enum s Henum) as [_ [_ [Hdef _]]].
  rewrite Hdef, Hex.
  destruct Hty as [-> | [-> | [-> | ->]]]; reflexivity.
Qed.

(** An example that is truthy stays the default of an enumerated string
    schema. *)
Lemma fromSchema_enum_default_example (s : SchemaObject.t) (first : JsVal) (rest : list JsVal) :
  SchemaObject.enum s = Some (first :: rest) ->
  truthy (extractExample s) = true ->
  SchemaObject.type s = None \/ SchemaObject.type s = Some "string" ->
  default (fromSchemaObject' s) = extractExample s.
Proof.
  intros Henum Hex Hty.
  destruct (fromSchemaObject_enum s Henum) as [_ [_ [Hdef _]]].
  rewrite Hdef.
  assert (Hd : isDefined (extractExample s) = true)
    by (destruct (extractExample s); simpl in *; congruence).
  destruct Hty as [-> | ->]; simpl; rewrite Hd, Hex; reflexivity.
Qed.

End FromSchemaFacts.

(** ** [fromParameter] *)

Section FromParameterFacts.

Variable startCase : JsVal -> string.
Variable stringify : JsVal -> string.
Variable extractExample : SchemaObject.t -> JsVal.
Variable doc : Document.t.

Local Abbreviation fromSchemaObject' :=
  (fromSchemaObject startCase stringify extractExample).
Local Abbreviation fromParameter' :=
  (fromParameter startCase stringify extractExample doc).

(** [fromParameter] after the two resolutions, by location. *)
Lemma fromParameter_resolved (parameter : RefOr ParameterObject.t)
  (p : ParameterObject.t) (s : SchemaObject.t) :
  RefResolver.resolve (Document.parameters doc) parameter = OK p ->
  resolveSchema doc (ParameterObject.schema p) = OK s ->
  fromParameter' parameter =
  let n := ParameterObject.name p in
  let field :=
    combine [INodeProperties.mk (Some (startCase (JStr n))) (Some n) None
               (ParameterObject.example p) (ParameterObject.description p)
               None (ParameterObject.required p) None None None;
             fromSchemaObject' s] in
  if ParameterObject.in_ p =? "query" then
    OK (dropFalsyRequired (set_routing (Some (RequestQs n valueExpr)) field))
  else if ParameterObject.in_ p =? "path" then
    OK (dropFalsyRequired (set_required (Some true) field))
  else if ParameterObject.in_ p =? "header" then
    OK (dropFalsyRequired (set_routing (Some (RequestHeaders n valueExpr)) field))
  else Err (UnsupportedParameterLocation (ParameterObject.in_ p)).
Proof.
  intros Hp Hs. unfold fromParameter. rewrite Hp. simpl.
  rewrite (fromSchema_resolved startCase stringify extractExample doc _ Hs). simpl.
  destruct (ParameterObject.in_ p =? "query"); [reflexivity |].
  destruct (ParameterObject.in_ p =? "path"); [reflexivity |].
  destruct (ParameterObject.in_ p =? "header"); reflexivity.
Qed.



(** C4: the field of a path parameter is required, whatever the parameter
    declares. *)
Theorem fromParameter_path_required (parameter : RefOr ParameterObject.t)
  (p : ParameterObject.t) (s : SchemaObject.t) :
  RefResolver.resolve (Document.parameters doc) parameter = OK p ->
  resolveSchema doc (ParameterObject.schema p) = OK s ->
  ParameterObject.in_ p = "path" ->
  exists f, fromParameter' parameter = OK f /\ required f = Some true.
Proof.
  intros Hp Hs Hin. rewrite (fromParameter_resolved parameter Hp Hs).
  rewrite Hin. cbv zeta. simpl. eexists. split; reflexivity.
Qed.

End FromParameterFacts.

(** ** Content-type labels *)

Lemma prefix_append (needle s : string) :
  String.prefix needle s = true <-> exists post, s = (needle ++ post)%string.
Proof.
  revert s. induction needle as [| c needle IH]; intros s.
  - split; [intros _; exists s; reflexivity | intros _; destruct s; reflexivity].
  - destruct s as [| c' s]; simpl.
    + split; [discriminate | intros [post H]; discriminate H].
    + destruct (Ascii.ascii_dec c c') as [-> | Hne].
      * rewrite IH. split; intros [post H]; exists post.
        -- rewrite H. reflexivity.
        -- inversion H. reflexivity.
      * split; [discriminate |].
        intros [post H]. inversion H. congruence.
Qed.

(** X21: the unanchored pattern accepts a label exactly when
    "application/json" occurs in it. *)
Lemma isJsonKey_occurs (key : string) :
  isJsonKey key = true <->
  exists pre post, key = (pre ++ "application/json" ++ post)%string.
Proof.
  unfold isJsonKey. generalize "application/json" as needle. intros needle.
  induction key as [| c key IH].
  - cbn [includes]. rewrite orb_false_r, prefix_append. split.
    + intros [post H]. exists "", post. exact H.
    + intros [pre [post H]]. destruct pre; [exists post; exact H |].
      discriminate H.
  - cbn [includes]. rewrite orb_true_iff, prefix_append, IH. split.
    + intros [[post H] | [pre [post H]]].
      * exists "", post. exact H.
      * exists (String c pre), post. simpl. rewrite H. reflexivity.
    + intros [pre [post H]]. destruct pre as [| c' pre].
      * left. exists post. exact H.
      * right. exists pre, post. simpl in H. inversion H. reflexivity.
Qed.

Lemma lookup_first {A} (key : string) (before after : list (string * A)) (a : A) :
  (forall kv, In kv before -> fst kv <> key) ->
  lookup key (before ++ (key, a) :: after) = Some a.
Proof.
  induction before as [| [k v] before IH]; simpl; intros Hb.
  - rewrite String.eqb_refl. reflexivity.
  - destruct (String.eqb_spec k key) as [-> | Hne].
    + exfalso. apply (Hb (key, v)); [left |]; reflexivity.
    + apply IH. intros kv Hin. apply Hb. right. exact Hin.
Qed.

Lemma findKey_at_first {A} (test : string -> bool) (before after : list (string * A))
  (key : string) (a : A) :
  (forall kv, In kv before -> test (fst kv) = false) ->
  test key = true ->
  findKey (before ++ (key, a) :: after) test = Some a.
Proof.
  unfold findKey. induction before as [| [k v] before IH]; simpl; intros Hb Hk.
  - rewrite Hk. reflexivity.
  - pose proof (Hb (k, v) (or_introl eq_refl)) as Hkv. simpl in Hkv.
    rewrite Hkv. apply IH; [| exact Hk]. intros kv Hin. apply Hb. right. exact Hin.
Qed.

(** ** [fromRequestBody] *)



Section FromRequestBodyFacts.

Variable startCase : JsVal -> string.
Variable stringify : JsVal -> string.
Variable extractExample : SchemaObject.t -> JsVal.
Variable doc : Document.t.

Local Abbreviation fromSchemaObject' :=
  (fromSchemaObject startCase stringify extractExample).
Local Abbreviation fromSchema' :=
  (fromSchema startCase stringify extractExample doc).
Local Abbreviation fromSchemaProperty' :=
  (fromSchemaProperty startCase stringify extractExample doc).
Local Abbreviation fromMultipartFormData' :=
  (fromMultipartFormData startCase stringify extractExample doc).
Local Abbreviation arrayBodyFields' :=
  (arrayBodyFields startCase stringify extractExample doc).
Local Abbreviation propertyFields' :=
  (propertyFields startCase stringify extractExample doc).
Local Abbreviation fromJsonContent' :=
  (fromJsonContent startCase stringify extractExample doc).
Local Abbreviation fromRequestBody' :=
  (fromRequestBody startCase stringify extractExample doc).


Lemma fromRequestBody_json (body : RefOr RequestBodyObject.t)
  (b : RequestBodyObject.t) (m : MediaTypeObject.t) :
  RefResolver.resolve (Document.requestBodies doc) body = OK b ->
  lookup "multipart/form-data" (RequestBodyObject.content b) = None ->
  findKey (RequestBodyObject.content b) isJsonKey = Some m ->
  fromRequestBody' (Some body) = fromJsonContent' m.
Proof.
  intros Hb Hmp Hfk. unfold fromRequestBody. rewrite Hb. simpl.
  rewrite Hmp, Hfk. reflexivity.
Qed.

Lemma fromRequestBody_multipart (body : RefOr RequestBodyObject.t)
  (b : RequestBodyObject.t) (m : MediaTypeObject.t) :
  RefResolver.resolve (Document.requestBodies doc) body = OK b ->
  lookup "multipart/form-data" (RequestBodyObject.content b) = Some m ->
  fromRequestBody' (Some body) = fromMultipartFormData' m.
Proof.
  intros Hb Hmp. unfold fromRequestBody. rewrite Hb. simpl.
  rewrite Hmp. reflexivity.
Qed.

(** The selection as the code makes it.  A resolved request body is
    compiled from exactly one of its contents: from the multipart/form-data content when the body has one;
    otherwise from the content of the first label in which application/json
    occurs; and when the body has neither, [fromRequestBody] fails with
    [UnsupportedBodyContentType]. *)
Theorem fromRequestBody_content_selection (body : RefOr RequestBodyObject.t)
  (b : RequestBodyObject.t) :
  RefResolver.resolve (Document.requestBodies doc) body = OK b ->
  (forall before m after,
     RequestBodyObject.content b = before ++ ("multipart/form-data", m) :: after ->
     (forall kv, In kv before -> fst kv <> "multipart/form-data") ->
     fromRequestBody' (Some body) = fromMultipartFormData' m) /\
  (forall before label m after,
     RequestBodyObject.content b = before ++ (label, m) :: after ->
     (forall kv, In kv (RequestBodyObject.content b) ->
        fst kv <> "multipart/form-data") ->
     isJsonKey label = true ->
     (forall kv, In kv before -> isJsonKey (fst kv) = false) ->
     fromRequestBody' (Some body) = fromJsonContent' m) /\
  ((forall kv, In kv (RequestBodyObject.content b) ->
      fst kv <> "multipart/form-data" /\ isJsonKey (fst kv) = false) ->
   fromRequestBody' (Some body) = Err UnsupportedBodyContentType).
Proof.
  intros Hb. repeat apply conj.
  - intros before m after Hc Hbefore.
    apply (fromRequestBody_multipart body Hb).
    rewrite Hc. apply lookup_first. exact Hbefore.
  - intros before label m after Hc Hnomp Hlabel Hbefore.
    apply (fromRequestBody_json body Hb).
    + apply lookup_none. exact Hnomp.
    + rewrite Hc. apply findKey_at_first; assumption.
  - intros Hnone. unfold fromRequestBody. rewrite Hb. simpl.
    replace (lookup "multipart/form-data" (RequestBodyObject.content b))
      with (@None MediaTypeObject.t)
      by (symmetry; apply lookup_none; intros kv Hin; apply Hnone; exact Hin).
    replace (findKey (RequestBodyObject.content b) isJsonKey)
      with (@None MediaTypeObject.t)
      by (symmetry; apply findKey_none; intros kv Hin; apply Hnone; exact Hin).
    reflexivity.
Qed.

(** The guard of the JSON branch lets object schemas, array schemas and
    schemas with properties through. *)
Lemma fromJsonContent_supported (m : MediaTypeObject.t) (s : SchemaObject.t) :
  resolveSchema doc (MediaTypeObject.schema m) = OK s ->
  SchemaObject.type s = Some "object" \/ SchemaObject.type s = Some "array" \/
  SchemaObject.properties s <> None ->
  fromJsonContent' m =
  (arrayFields <- arrayBodyFields' s ;;
   fields <- propertyFields' s ;;
   OK (arrayFields ++ fields)).
Proof.
  intros Hs Hshape. unfold fromJsonContent. rewrite Hs. simpl.
  destruct (SchemaObject.properties s) as [props |]; [reflexivity |].
  destruct Hshape as [-> | [-> | Hp]]; [reflexivity | reflexivity | congruence].
Qed.

(** Any other schema is refused. *)
Lemma fromJsonContent_unsupported (m : MediaTypeObject.t) (s : SchemaObject.t) :
  resolveSchema doc (MediaTypeObject.schema m) = OK s ->
  SchemaObject.properties s = None ->
  SchemaObject.type s <> Some "object" ->
  SchemaObject.type s <> Some "array" ->
  fromJsonContent' m = Err (UnsupportedBodySchema (SchemaObject.type s)).
Proof.
  intros Hs Hp Ho Ha. unfold fromJsonContent. rewrite Hs. simpl. rewrite Hp.
  destruct (SchemaObject.type s) as [t |]; simpl; [| reflexivity].
  destruct (String.eqb_spec t "object") as [-> | _]; [congruence |].
  destruct (String.eqb_spec t "array") as [-> | _]; [congruence |].
  reflexivity.
Qed.

Lemma arrayBodyFields_none (s : SchemaObject.t) :
  SchemaObject.type s <> Some "array" \/ SchemaObject.items s = None ->
  arrayBodyFields' s = OK [].
Proof.
  intros H. unfold arrayBodyFields.
  destruct (SchemaObject.items s) as [it |]; [| reflexivity].
  destruct H as [H | H]; [| discriminate H].
  destruct (SchemaObject.type s) as [t |]; simpl; [| reflexivity].
  destruct (String.eqb_spec t "array") as [-> | _]; [congruence | reflexivity].
Qed.






(** C10: an array schema with neither items nor properties makes
    [fromRequestBody] return the empty field list, without an error. *)
Theorem fromRequestBody_array_without_items (body : RefOr RequestBodyObject.t)
  (b : RequestBodyObject.t) (m : MediaTypeObject.t) (s : SchemaObject.t) :
  RefResolver.resolve (Document.requestBodies doc) body = OK b ->
  lookup "multipart/form-data" (RequestBodyObject.content b) = None ->
  findKey (RequestBodyObject.content b) isJsonKey = Some m ->
  resolveSchema doc (MediaTypeObject.schema m) = OK s ->
  SchemaObject.type s = Some "array" ->
  SchemaObject.items s = None ->
  SchemaObject.properties s = None ->
  fromRequestBody' (Some body) = OK [].
Proof.
  intros Hb Hmp Hfk Hs Hty Hit Hprops.
  rewrite (fromRequestBody_json body Hb Hmp Hfk).
  rewrite (fromJsonContent_supported m Hs) by tauto.
  rewrite arrayBodyFields_none by tauto.
  unfold propertyFields, propertiesOf. rewrite Hprops. reflexivity.
Qed.


End FromRequestBodyFacts.

(** ** [sessionFirst] and [parseFields] *)

Lemma isSession_true (f : INodeProperties.t) :
  isSession f = true <-> name f = Some "session".
Proof.
  unfold isSession. destruct (name f) as [n |]; [| split; discriminate].
  rewrite String.eqb_eq. split; congruence.
Qed.

Lemma insertSorted_session (x : INodeProperties.t) (l : list INodeProperties.t) :
  isSession x = true -> insertSorted sessionFirst x l = x :: l.
Proof.
  intros Hx. destruct l as [| y l]; simpl; [reflexivity |].
  unfold sessionFirst. rewrite Hx. reflexivity.
Qed.

(** A field that is not a session field walks past the session fields and
    stops in front of the first of the others. *)
Lemma insertSorted_other (x : INodeProperties.t) (sessions others : list INodeProperties.t) :
  isSession x = false ->
  Forall (fun f => isSession f = true) sessions ->
  Forall (fun f => isSession f = false) others ->
  insertSorted sessionFirst x (sessions ++ others) = sessions ++ x :: others.
Proof.
  intros Hx Hs Ho. induction Hs as [| y sessions Hy Hs IH]; simpl.
  - destruct Ho as [| z others Hz Ho]; simpl; [reflexivity |].
    unfold sessionFirst. rewrite Hx, Hz. reflexivity.
  - unfold sessionFirst at 1. rewrite Hx, Hy. simpl. rewrite IH. reflexivity.
Qed.

Lemma Forall_filter_true {A} (p : A -> bool) (l : list A) :
  Forall (fun a => p a = true) (filter p l).
Proof.
  apply Forall_forall. intros a Ha. apply filter_In in Ha. tauto.
Qed.

Lemma Forall_filter_false {A} (p : A -> bool) (l : list A) :
  Forall (fun a => p a = false) (filter (fun a => negb (p a)) l).
Proof.
  apply Forall_forall. intros a Ha. apply filter_In in Ha.
  destruct Ha as [_ Ha]. apply negb_true_iff. exact Ha.
Qed.

(** Sorting with [sessionFirst] is the stable partition into session fields
    and the others. *)
Lemma sort_sessionFirst (l : list INodeProperties.t) :
  sort sessionFirst l =
  filter isSession l ++ filter (fun f => negb (isSession f)) l.
Proof.
  induction l as [| x l IH]; simpl; [reflexivity |].
  rewrite IH. destruct (isSession x) eqn:Hx; simpl.
  - apply insertSorted_session. exact Hx.
  - apply insertSorted_other;
      [exact Hx | apply Forall_filter_true | apply Forall_filter_false].
Qed.

Lemma partition_Permutation {A} (p : A -> bool) (l : list A) :
  Permutation l (filter p l ++ filter (fun a => negb (p a)) l).
Proof.
  induction l as [| x l IH]; simpl; [constructor |].
  destruct (p x); simpl.
  - constructor. exact IH.
  - apply Permutation_cons_app. exact IH.
Qed.

Lemma filter_twice_neg {A} (p : A -> bool) (l : list A) :
  filter (fun a => negb (p a)) (filter p l ++ filter (fun a => negb (p a)) l) =
  filter (fun a => negb (p a)) l.
Proof.
  rewrite filter_app.
  replace (filter (fun a => negb (p a)) (filter p l)) with (@nil A).
  - simpl. induction l as [| x l IH]; simpl; [reflexivity |].
    destruct (p x) eqn:Hx; simpl; [exact IH |]. rewrite Hx. simpl. f_equal. exact IH.
  - induction l as [| x l IH]; simpl; [reflexivity |].
    destruct (p x) eqn:Hx; simpl; [rewrite Hx; simpl |]; exact IH.
Qed.

Section ParserFacts.

Variable startCase : JsVal -> string.
Variable stringify : JsVal -> string.
Variable extractExample : SchemaObject.t -> JsVal.
Variable doc : Document.t.

Local Abbreviation fromParameters' :=
  (fromParameters startCase stringify extractExample doc).
Local Abbreviation fromRequestBody' :=
  (fromRequestBody startCase stringify extractExample doc).
Local Abbreviation parseFields' :=
  (parseFields startCase stringify extractExample doc).

(** C9: in the field list of an operation a field named "session", if there
    is one, comes first, and all the other fields keep their insertion
    order: those of the parameters before those of the body, each group in
    the order it was compiled in. *)
Theorem parseFields_session_first (resourceName operationName : string)
  (operation : OperationObject.t)
  (parameterFields bodyFields : list INodeProperties.t) :
  fromParameters' (OperationObject.parameters operation) = OK parameterFields ->
  fromRequestBody' (OperationObject.requestBody operation) = OK bodyFields ->
  exists fields,
    parseFields' resourceName operationName operation = OK fields /\
    Permutation
      (map (set_displayOptions (Some (showFor resourceName operationName)))
         (parameterFields ++ bodyFields))
      fields /\
    (Exists (fun f => name f = Some "session") (parameterFields ++ bodyFields) ->
     exists first rest, fields = first :: rest /\ name first = Some "session") /\
    filter (fun f => negb (isSession f)) fields =
      map (set_displayOptions (Some (showFor resourceName operationName)))
        (filter (fun f => negb (isSession f)) parameterFields ++
         filter (fun f => negb (isSession f)) bodyFields).
Proof.
  intros Hp Hb. unfold parseFields. rewrite Hp, Hb. cbn [bind].
  eexists. split; [reflexivity |].
  rewrite sort_sessionFirst.
  set (attach := set_displayOptions (Some (showFor resourceName operationName))).
  set (compiled := parameterFields ++ bodyFields).
  repeat apply conj.
  - apply partition_Permutation.
  - intros Hex. apply Exists_exists in Hex. destruct Hex as [f [Hin Hname]].
    assert (Hs : In (attach f) (filter isSession (map attach compiled))).
    { apply filter_In. split; [apply in_map; exact Hin |].
      apply isSession_true. destruct f; exact Hname. }
    destruct (filter isSession (map attach compiled)) as [| first rest] eqn:Hf;
      [destruct Hs |].
    exists first, (rest ++ filter (fun f => negb (isSession f)) (map attach compiled)).
    split; [reflexivity |].
    apply isSession_true.
    assert (Hin' : In first (filter isSession (map attach compiled)))
      by (rewrite Hf; left; reflexivity).
    apply filter_In in Hin'. tauto.
  - rewrite filter_twice_neg. unfold compiled.
    rewrite <- filter_app.
    induction (parameterFields ++ bodyFields) as [| x l IH]; simpl; [reflexivity |].
    replace (isSession (attach x)) with (isSession x) by (destruct x; reflexivity).
    destruct (isSession x); simpl; [exact IH | f_equal; exact IH].
Qed.

End ParserFacts.

(** * Closed examples on the sample host *)

Local Abbreviation sampleFromSchema :=
  (fromSchema Sample.startCase Sample.stringify Sample.extractExample Sample.doc).
Local Abbreviation sampleFromParameter :=
  (fromParameter Sample.startCase Sample.stringify Sample.extractExample Sample.doc).
Local Abbreviation sampleFromRequestBody :=
  (fromRequestBody Sample.startCase Sample.stringify Sample.extractExample Sample.doc).
Local Abbreviation sampleParseFields :=
  (parseFields Sample.startCase Sample.stringify Sample.extractExample Sample.doc).

(** ** [fromSchema] *)

(** The table at [{ type: 'boolean' }]. *)
Lemma fromSchema_type_mapping_witness :
  exists f,
    sampleFromSchema (Inline (Sample.typed "boolean")) = OK f /\
    type f = Some tBoolean /\ default f = JBool true.
Proof.
  destruct (@fromSchema_type_mapping Sample.startCase Sample.stringify
              Sample.extractExample Sample.doc
              (Inline (Sample.typed "boolean")) (Sample.typed "boolean"))
    as (f & Hf & _ & Hbool & _).
  - reflexivity.
  - reflexivity.
  - left. reflexivity.
  - exists f. split; [exact Hf | apply Hbool; reflexivity].
Defined.

(** C1 as stated fails: [{ type: 'string', enum: ['a', 'b'] }] is of string
    kind and has no example, and its field is not the string field with
    default [""] of the table but an options field with default ["a"]. *)
Lemma fromSchema_enum_string_is_options :
  SchemaObject.type Sample.enumString = Some "string" /\
  Sample.extractExample Sample.enumString = JUndefined /\
  exists f,
    sampleFromSchema (Inline Sample.enumString) = OK f /\
    type f = Some tOptions /\ default f = JStr "a" /\
    ~ (type f = Some tString /\ default f = JStr "").
Proof.
  split; [reflexivity |]. split; [reflexivity |].
  eexists. split; [reflexivity |]. simpl.
  split; [reflexivity |]. split; [reflexivity |].
  intros [H _]. discriminate H.
Qed.

(** C2 at [{ type: 'boolean', enum: [false, true] }], which has no example:
    the options are the enumerated values in order, and the default is
    [true], the default of the boolean kind, not the first enumerated value
    [false]. *)
Theorem fromSchema_enum_boolean_default :
  Sample.extractExample Sample.enumBoolean = JUndefined /\
  exists f options,
    sampleFromSchema (Inline Sample.enumBoolean) = OK f /\
    type f = Some tOptions /\
    INodeProperties.options f = Some options /\
    map INodePropertyOptions.value options = [JBool false; JBool true] /\
    default f = JBool true /\
    default f <> JBool false.
Proof.
  split; [reflexivity |].
  eexists. eexists. split; [reflexivity |]. simpl.
  repeat split. discriminate.
Qed.

(** ** [fromParameter] *)



(** The path parameter [id] declares [required: false]. *)
Lemma fromParameter_path_required_witness :
  ParameterObject.required Sample.idParameter = Some false /\
  exists f,
    sampleFromParameter (Inline Sample.idParameter) = OK f /\
    required f = Some true.
Proof.
  split; [reflexivity |].
  apply (@fromParameter_path_required Sample.startCase Sample.stringify
           Sample.extractExample Sample.doc
           (Inline Sample.idParameter) Sample.idParameter (Sample.typed "string"));
    reflexivity.
Defined.

(** A cookie parameter is refused. *)
Example fromParameter_cookie :
  sampleFromParameter (Inline Sample.cookieParameter) =
  Err (UnsupportedParameterLocation "cookie").
Proof. reflexivity. Qed.

(** A reference to a parameter the document does not have. *)
Example fromParameter_broken_reference :
  sampleFromParameter (Ref "#/components/parameters/missing") =
  Err (BrokenReference "#/components/parameters/missing").
Proof. reflexivity. Qed.

(** ** [fromRequestBody] *)

Local Abbreviation sampleFromJsonContent :=
  (fromJsonContent Sample.startCase Sample.stringify Sample.extractExample Sample.doc).

(** Of plain text and two JSON labels the first JSON label is taken. *)
Lemma fromRequestBody_content_selection_witness :
  sampleFromRequestBody (Some (Inline Sample.mixedBody)) =
  sampleFromJsonContent (Sample.media Sample.personSchema).
Proof.
  destruct (@fromRequestBody_content_selection Sample.startCase Sample.stringify
              Sample.extractExample Sample.doc
              (Inline Sample.mixedBody) Sample.mixedBody eq_refl)
    as (_ & Hjson & _).
  apply (Hjson [("text/plain", Sample.media (Sample.typed "string"))]
           "application/json; charset=utf-8"
           (Sample.media Sample.personSchema)
           [("application/json", Sample.media Sample.stringArraySchema)]).
  - reflexivity.
  - intros kv [<- | [<- | [<- | []]]]; discriminate.
  - reflexivity.
  - intros kv [<- | []]. reflexivity.
Defined.

(** Multipart form data wins over a JSON content listed before it. *)
Example fromRequestBody_multipart_first :
  sampleFromRequestBody (Some (Inline Sample.uploadBody)) =
  fromMultipartFormData Sample.startCase Sample.stringify Sample.extractExample
    Sample.doc (Sample.media Sample.uploadSchema).
Proof. reflexivity. Qed.

(** XML alone is refused. *)
Example fromRequestBody_xml :
  sampleFromRequestBody (Some (Inline Sample.xmlBody)) =
  Err UnsupportedBodyContentType.
Proof. reflexivity. Qed.

(** A JSON body of string type is refused. *)
Example fromRequestBody_string_schema :
  sampleFromRequestBody (Some (Inline (Sample.jsonBody (Sample.typed "string")))) =
  Err (UnsupportedBodySchema (Some "string")).
Proof. reflexivity. Qed.


(** The fields of the person body, in full. *)
Example fromRequestBody_person :
  sampleFromRequestBody (Some (Inline (Sample.jsonBody Sample.personSchema))) =
  OK [INodeProperties.mk (Some "name") (Some "name") (Some tString) (JStr "")
        None None (Some true)
        (Some (RequestBodyKey "name" "={{ $value }}")) None None;
      INodeProperties.mk (Some "active") (Some "active") (Some tBoolean)
        (JBool true) None None None
        (Some (RequestBodyKey "active" "={{ $value }}")) None None].
Proof. reflexivity. Qed.



(** The array schema without items. *)
Lemma fromRequestBody_array_without_items_witness :
  sampleFromRequestBody (Some (Inline (Sample.jsonBody Sample.bareArraySchema))) =
  OK [].
Proof.
  apply (@fromRequestBody_array_without_items Sample.startCase Sample.stringify
           Sample.extractExample Sample.doc
           (Inline (Sample.jsonBody Sample.bareArraySchema))
           (Sample.jsonBody Sample.bareArraySchema)
           (Sample.media Sample.bareArraySchema) Sample.bareArraySchema);
    reflexivity.
Defined.


(** The fields of the upload body, in full. *)
Example fromRequestBody_upload :
  sampleFromRequestBody (Some (Inline Sample.uploadBody)) =
  OK [INodeProperties.mk (Some "file") (Some "file") (Some tString) (JStr "")
        None None None
        (Some (RequestBodyKey "file" "={{ $binary[$value] }}"))
        (Some (TypeOptions.mk (Some true))) None;
      INodeProperties.mk (Some "note") (Some "note") (Some tString) (JStr "")
        None None None
        (Some (RequestBodyKey "note" "={{ $value }}")) None None].
Proof. reflexivity. Qed.

(** A multipart schema without properties. *)
Example fromRequestBody_multipart_without_properties :
  sampleFromRequestBody
    (Some (Inline (RequestBodyObject.mk
                     [("multipart/form-data", Sample.media (Sample.typed "object"))]))) =
  Err MultipartSchemaMissingProperties.
Proof. reflexivity. Qed.

(** ** [parseFields] *)

(** The sample operation: [session] is the second parameter. *)
Lemma parseFields_session_first_witness :
  exists fields,
    sampleParseFields "pets" "Create" Sample.operation = OK fields /\
    (exists first rest, fields = first :: rest /\ name first = Some "session") /\
    map name (filter (fun f => negb (isSession f)) fields) =
      [Some "limit"; Some "id"; Some "name"; Some "active"].
Proof.
  destruct (@parseFields_session_first Sample.startCase Sample.stringify
              Sample.extractExample Sample.doc "pets" "Create" Sample.operation
              _ _ eq_refl eq_refl)
    as (fields & Hrun & _ & Hfirst & Hothers).
  exists fields. split; [exact Hrun |]. split.
  - apply Hfirst. apply Exists_cons_tl. apply Exists_cons_hd. reflexivity.
  - rewrite Hothers. reflexivity.
Defined.

(** The names of the fields of the sample operation, in output order. *)
Example parseFields_operation_names :
  match sampleParseFields "pets" "Create" Sample.operation with
  | OK fields => map name fields
  | Err _ => []
  end =
  [Some "session"; Some "limit"; Some "id"; Some "name"; Some "active"].
Proof. reflexivity. Qed.

(** * Further properties *)

(** ** Strings *)

Lemma string_app_nil_r (s : string) : (s ++ "")%string = s.
Proof.
  induction s as [| c s IH]; simpl; [reflexivity | rewrite IH; reflexivity].
Qed.

Lemma string_app_assoc (a b c : string) :
  ((a ++ b) ++ c)%string = (a ++ (b ++ c))%string.
Proof.
  induction a as [| x a IH]; simpl; [reflexivity | rewrite IH; reflexivity].
Qed.

(** ** [replaceToParameter] *)

Lemma replaceFrom_inside_unclosed (name s : string) :
  ~ occurs "}"%char s ->
  replaceFrom (Some name) s = String "{"%char (name ++ s).
Proof.
  revert name. induction s as [| c s IH]; intros name Hno; simpl.
  - rewrite string_app_nil_r. reflexivity.
  - simpl in Hno. destruct (Ascii.eqb_spec c "}"%char) as [-> | _].
    + exfalso. apply Hno. left. reflexivity.
    + rewrite IH by tauto. rewrite string_app_assoc. reflexivity.
Qed.

Lemma replaceFrom_inside_closed (acc name rest : string) :
  ~ occurs "}"%char name ->
  replaceFrom (Some acc) (name ++ String "}"%char rest) =
  (parameterExpr (acc ++ name) ++ replaceFrom None rest)%string.
Proof.
  revert acc. induction name as [| c name IH]; intros acc Hno; simpl.
  - rewrite string_app_nil_r. reflexivity.
  - simpl in Hno. destruct (Ascii.eqb_spec c "}"%char) as [-> | _].
    + exfalso. apply Hno. left. reflexivity.
    + rewrite IH by tauto. rewrite string_app_assoc. reflexivity.
Qed.

Lemma replaceFrom_outside (before rest : string) :
  ~ occurs "{"%char before ->
  replaceFrom None (before ++ rest) = (before ++ replaceFrom None rest)%string.
Proof.
  induction before as [| c before IH]; intros Hno; simpl; [reflexivity |].
  simpl in Hno. destruct (Ascii.eqb_spec c "{"%char) as [-> | _].
  - exfalso. apply Hno. left. reflexivity.
  - rewrite IH by tauto. reflexivity.
Qed.

(** X1: a URI with no opening brace, or with no closing brace, has nothing to
    replace: [replaceToParameter] returns it as it is. *)
Theorem replaceToParameter_unchanged (uri : string) :
  ~ occurs "{"%char uri \/ ~ occurs "}"%char uri ->
  replaceToParameter uri = uri.
Proof.
  unfold replaceToParameter. intros [Hno | Hno].
  - rewrite <- (string_app_nil_r uri) at 1.
    rewrite replaceFrom_outside by exact Hno. simpl. apply string_app_nil_r.
  - induction uri as [| c uri IH]; simpl; [reflexivity |].
    simpl in Hno. destruct (Ascii.eqb_spec c "{"%char) as [-> | _].
    + rewrite replaceFrom_inside_unclosed by tauto. reflexivity.
    + rewrite IH by tauto. reflexivity.
Qed.

(** X2: the first placeholder of a URI template is rewritten to the
    [$parameter] expression of its name, the text before it is kept, and
    the rest of the template is rewritten in the same way. *)
Theorem replaceToParameter_placeholder (before name rest : string) :
  ~ occurs "{"%char before ->
  ~ occurs "}"%char name ->
  replaceToParameter (before ++ String "{"%char (name ++ String "}"%char rest)) =
  (before ++ parameterExpr name ++ replaceToParameter rest)%string.
Proof.
  intros Hb Hn. unfold replaceToParameter.
  rewrite replaceFrom_outside by exact Hb. simpl.
  rewrite replaceFrom_inside_closed by exact Hn. reflexivity.
Qed.

(** ** The operation id *)

Lemma splitFrom_nonempty (sep : Ascii.ascii) (current s : string) :
  splitFrom sep current s <> [].
Proof.
  revert current. induction s as [| c s IH]; intros current; simpl.
  - discriminate.
  - destruct (Ascii.eqb c sep); [discriminate | apply IH].
Qed.

Lemma splitFrom_no_separator (sep : Ascii.ascii) (current s : string) :
  ~ occurs sep s ->
  splitFrom sep current s = [(current ++ s)%string].
Proof.
  revert current. induction s as [| c s IH]; intros current Hno; simpl.
  - rewrite string_app_nil_r. reflexivity.
  - simpl in Hno. destruct (Ascii.eqb_spec c sep) as [-> | _].
    + exfalso. apply Hno. left. reflexivity.
    + rewrite IH by tauto. rewrite string_app_assoc. reflexivity.
Qed.

Lemma splitFrom_first_separator (sep : Ascii.ascii) (current first rest : string) :
  ~ occurs sep first ->
  splitFrom sep current (first ++ String sep rest) =
  (current ++ first)%string :: split sep rest.
Proof.
  revert current. induction first as [| c first IH]; intros current Hno; simpl.
  - rewrite Ascii.eqb_refl, string_app_nil_r. reflexivity.
  - simpl in Hno. destruct (Ascii.eqb_spec c sep) as [-> | _].
    + exfalso. apply Hno. left. reflexivity.
    + rewrite IH by tauto. rewrite string_app_assoc. reflexivity.
Qed.

(** Joining what was split gives the string back. *)
Lemma join_splitFrom (sep : Ascii.ascii) (current s : string) :
  join (String sep "") (splitFrom sep current s) = (current ++ s)%string.
Proof.
  revert current. induction s as [| c s IH]; intros current; simpl.
  - rewrite string_app_nil_r. reflexivity.
  - destruct (Ascii.eqb_spec c sep) as [-> | _].
    + pose proof (splitFrom_nonempty sep "" s) as Hne.
      pose proof (IH ""%string) as IH'.
      destruct (splitFrom sep "" s) as [| part parts]; [congruence |].
      change (join (String sep "") (current :: part :: parts))
        with (current ++ String sep "" ++ join (String sep "") (part :: parts))%string.
      rewrite IH'. reflexivity.
    + rewrite IH, string_app_assoc. reflexivity.
Qed.

(** X3: the short operation id is what follows the first underscore of the
    operation id; an id without underscore, or with nothing after its first
    underscore, is used as it is. *)
Theorem shortOperationId_cases (operationId : string) :
  (~ occurs "_"%char operationId -> shortOperationId operationId = operationId) /\
  (forall first rest,
     operationId = (first ++ String "_"%char rest)%string ->
     ~ occurs "_"%char first ->
     shortOperationId operationId = if rest =? "" then operationId else rest).
Proof.
  unfold shortOperationId, split. split.
  - intros Hno. rewrite splitFrom_no_separator by exact Hno. reflexivity.
  - intros first rest -> Hno.
    rewrite splitFrom_first_separator by exact Hno. simpl skipn.
    unfold split. rewrite join_splitFrom. reflexivity.
Qed.

(** ** Loops, filters and the required flag *)

Lemma mapM_Forall {A B} (f : A -> Result B) (P : B -> Prop) (l : list A) (bs : list B) :
  (forall a b, In a l -> f a = OK b -> P b) ->
  mapM f l = OK bs ->
  Forall P bs.
Proof.
  revert bs. induction l as [| a l IH]; simpl; intros bs HP H.
  - injection H as <-. constructor.
  - apply bind_OK in H. destruct H as [b [Hb H]].
    apply bind_OK in H. destruct H as [bs' [Hbs H]].
    injection H as <-. constructor.
    + apply (HP a b); [left; reflexivity | exact Hb].
    + apply IH; [| exact Hbs]. intros a' b' Hin. apply HP. right. exact Hin.
Qed.

(** The loop stops at the first element that fails. *)
Lemma mapM_first_error {A B} (f : A -> Result B) (before after : list A) (a : A)
  (e : Error) :
  (forall a', In a' before -> exists b, f a' = OK b) ->
  f a = Err e ->
  mapM f (before ++ a :: after) = Err e.
Proof.
  intros Hbefore Ha. induction before as [| a' before IH]; simpl.
  - rewrite Ha. reflexivity.
  - destruct (Hbefore a' (or_introl eq_refl)) as [b Hb]. rewrite Hb. simpl.
    rewrite IH; [reflexivity |].
    intros x Hx. apply Hbefore. right. exact Hx.
Qed.

Lemma Forall_filter {A} (P : A -> Prop) (p : A -> bool) (l : list A) :
  Forall P l -> Forall P (filter p l).
Proof.
  intros H. apply Forall_forall. intros a Ha. apply filter_In in Ha.
  rewrite Forall_forall in H. apply H. tauto.
Qed.

Lemma filter_all {A} (p : A -> bool) (l : list A) :
  Forall (fun a => p a = true) l -> filter p l = l.
Proof.
  induction 1 as [| a l Ha _ IH]; simpl; [reflexivity |].
  rewrite Ha, IH. reflexivity.
Qed.

Lemma filter_none {A} (p : A -> bool) (l : list A) :
  Forall (fun a => p a = false) l -> filter p l = [].
Proof.
  induction 1 as [| a l Ha _ IH]; simpl; [reflexivity |].
  rewrite Ha. exact IH.
Qed.

Lemma requiredOrAbsent_dropFalsyRequired (obj : INodeProperties.t) :
  requiredOrAbsent (dropFalsyRequired obj).
Proof.
  unfold requiredOrAbsent.
  destruct obj as [? ? ? ? ? ? [[|] |] ? ? ?]; simpl; tauto.
Qed.

Lemma requiredOrAbsent_combine (sources : list INodeProperties.t) :
  requiredOrAbsent (combine sources).
Proof. apply requiredOrAbsent_dropFalsyRequired. Qed.

(** ** [combine] *)

Lemma orElse_assoc {A} (a b c : option A) :
  orElse a (orElse b c) = orElse (orElse a b) c.
Proof. destruct a; reflexivity. Qed.

Lemma orElseJs_assoc (a b c : JsVal) :
  orElseJs a (orElseJs b c) = orElseJs (orElseJs a b) c.
Proof.
  unfold orElseJs. destruct (isDefined a) eqn:Ha; [rewrite Ha |]; reflexivity.
Qed.

(** X4: [combine] may be nested: combining a source with the combination of
    two others is combining the three.  This is how [fromRequestBody] lays
    the required flag over the field [fromSchemaProperty] combined. *)
Theorem combine_nested (a b c : INodeProperties.t) :
  combine [a; combine [b; c]] = combine [a; b; c].
Proof.
  destruct a as [dn1 n1 ty1 d1 de1 o1 r1 ro1 to1 do1].
  destruct b as [dn2 n2 ty2 d2 de2 o2 r2 ro2 to2 do2].
  destruct c as [dn3 n3 ty3 d3 de3 o3 r3 ro3 to3 do3].
  destruct r1 as [[|] |], r2 as [[|] |], r3 as [[|] |];
    unfold combine, assignDefaults, dropFalsyRequired, set_required; cbn;
    rewrite ?orElse_assoc, ?orElseJs_assoc; reflexivity.
Qed.

(** X5: the field [combine] returns is required exactly when the first
    source that has a [required] key has it [true]; a [false] in an earlier
    source hides a [true] in a later one, and the result never carries
    [required: false]. *)
Theorem combine_required (a b : INodeProperties.t) :
  (required (combine [a; b]) = Some true <->
   required a = Some true \/ (required a = None /\ required b = Some true)) /\
  requiredOrAbsent (combine [a; b]).
Proof.
  split; [| apply requiredOrAbsent_combine].
  destruct a as [? ? ? ? ? ? [[|] |] ? ? ?], b as [? ? ? ? ? ? [[|] |] ? ? ?];
    cbn; intuition congruence.
Qed.

(** ** More on [fromSchema] *)

Section FromSchemaMore.

Variable startCase : JsVal -> string.
Variable stringify : JsVal -> string.
Variable extractExample : SchemaObject.t -> JsVal.
Variable doc : Document.t.

Local Abbreviation fromSchemaObject' :=
  (fromSchemaObject startCase stringify extractExample).
Local Abbreviation fromSchema' :=
  (fromSchema startCase stringify extractExample doc).

(** X6: for a schema with a non-empty enumeration [fromSchema] returns an
    options field with one option per enumerated value, in order: the values
    of the options are the enumerated values and their names are the
    start-cased values. *)
Theorem fromSchema_enum_options (schema : Schema) (s : SchemaObject.t)
  (first : JsVal) (rest : list JsVal) :
  resolveSchema doc schema = OK s ->
  SchemaObject.enum s = Some (first :: rest) ->
  exists f opts,
    fromSchema' schema = OK f /\
    type f = Some tOptions /\
    options f = Some opts /\
    map INodePropertyOptions.value opts = first :: rest /\
    map INodePropertyOptions.name opts = map startCase (first :: rest).
Proof.
  intros Hres Henum.
  destruct (fromSchemaObject_enum startCase stringify extractExample s Henum)
    as (Hty & Hopts & _).
  exists (fromSchemaObject' s). eexists.
  split; [apply fromSchema_resolved; exact Hres |].
  split; [exact Hty |]. split; [exact Hopts |].
  rewrite !map_map. simpl. rewrite map_id. split; reflexivity.
Qed.


Lemma mapType_cases (type : option string) (d : JsVal) :
  (fst (mapType stringify type d) = Some tJson /\
   exists text, snd (mapType stringify type d) = JStr text) \/
  (fst (mapType stringify type d) <> Some tJson /\
   ((fst (mapType stringify type d) = None /\ snd (mapType stringify type d) = d) \/
    fst (mapType stringify type d) <> None)).
Proof.
  unfold mapType. destruct type as [t |].
  - destruct (t =? "boolean"); [right; split; [| right]; discriminate |].
    destruct (t =? "string"); [right; split; [| right]; discriminate |].
    destruct (t =? "object").
    { left. split; [reflexivity |]. destruct (isDefined d); eexists; reflexivity. }
    destruct (t =? "array").
    { left. split; [reflexivity |]. destruct (isDefined d); eexists; reflexivity. }
    destruct ((t =? "number") || (t =? "integer"));
      right; (split; [discriminate |]); [right; discriminate | left; split; reflexivity].
  - right. split; [| right]; discriminate.
Qed.

(** X8: the default of a json field is always a string: the serialized
    example, or ["{}"] or ["[]"]. *)
Theorem fromSchema_json_default_is_text (schema : Schema) (f : INodeProperties.t) :
  fromSchema' schema = OK f ->
  type f = Some tJson ->
  exists text, default f = JStr text.
Proof.
  intros Hf Hty. apply bind_OK in Hf. destruct Hf as [s [_ Hf]].
  injection Hf as <-.
  destruct (SchemaObject.enum s) as [[| first rest] |] eqn:Henum.
  - destruct (fromSchemaObject_plain startCase stringify extractExample s
                (or_intror Henum)) as (H1 & H2 & _).
    rewrite H1 in Hty. rewrite H2.
    destruct (mapType_cases (SchemaObject.type s) (extractExample s))
      as [[_ Htext] | [Hno _]]; [exact Htext | contradiction].
  - destruct (fromSchemaObject_enum startCase stringify extractExample s Henum)
      as (H1 & _). rewrite H1 in Hty. discriminate Hty.
  - destruct (fromSchemaObject_plain startCase stringify extractExample s
                (or_introl Henum)) as (H1 & H2 & _).
    rewrite H1 in Hty. rewrite H2.
    destruct (mapType_cases (SchemaObject.type s) (extractExample s))
      as [[_ Htext] | [Hno _]]; [exact Htext | contradiction].
Qed.

(** X9: a schema type the [switch] has no case for, on a schema without
    enumeration, gives a field with no type at all, whose default is the
    extracted example as it is. *)
Theorem fromSchema_unknown_type (schema : Schema) (s : SchemaObject.t) (t : string) :
  resolveSchema doc schema = OK s ->
  SchemaObject.type s = Some t ->
  ~ In t ["boolean"; "string"; "object"; "array"; "number"; "integer"] ->
  SchemaObject.enum s = None \/ SchemaObject.enum s = Some [] ->
  exists f,
    fromSchema' schema = OK f /\
    type f = None /\
    default f = extractExample s.
Proof.
  intros Hres Ht Hnot Henum. exists (fromSchemaObject' s).
  split; [apply fromSchema_resolved; exact Hres |].
  destruct (fromSchemaObject_plain startCase stringify extractExample s Henum)
    as (H1 & H2 & _).
  rewrite H1, H2, Ht. unfold mapType.
  simpl in Hnot.
  repeat match goal with
         | |- context [?x =? ?y] =>
             destruct (String.eqb_spec x y) as [-> | _]; [exfalso; tauto |]
         end.
  simpl. split; reflexivity.
Qed.

(** X10: whatever the schema, the field [fromSchema] returns has no name, no
    display name, no required flag, no routing, no type options and no
    display options: those are left to its callers. *)
Theorem fromSchema_leaves_unset (schema : Schema) (f : INodeProperties.t) :
  fromSchema' schema = OK f ->
  name f = None /\ displayName f = None /\ required f = None /\
  routing f = None /\ typeOptions f = None /\ displayOptions f = None.
Proof.
  intros Hf. apply bind_OK in Hf. destruct Hf as [s [_ Hf]]. injection Hf as <-.
  destruct (fromSchemaObject_unset startCase stringify extractExample s)
    as (H1 & H2 & H3 & H4 & H5 & H6).
  repeat split; assumption.
Qed.

End FromSchemaMore.

(** ** [fromParameters], [fromRequestBody] and [parseFields] as a whole *)

Section CompilerMore.

Variable startCase : JsVal -> string.
Variable stringify : JsVal -> string.
Variable extractExample : SchemaObject.t -> JsVal.
Variable doc : Document.t.

Local Abbreviation fromParameter' :=
  (fromParameter startCase stringify extractExample doc).
Local Abbreviation fromParameters' :=
  (fromParameters startCase stringify extractExample doc).
Local Abbreviation fromRequestBody' :=
  (fromRequestBody startCase stringify extractExample doc).
Local Abbreviation parseFields' :=
  (parseFields startCase stringify extractExample doc).

Lemma combine_name (a b : INodeProperties.t) (n : string) :
  name a = Some n -> name (combine [a; b]) = Some n.
Proof.
  destruct a as [? ? ? ? ? ? r1 ? ? ?], b as [? ? ? ? ? ? r2 ? ? ?].
  simpl. intros ->.
  destruct r1 as [[|] |], r2 as [[|] |]; reflexivity.
Qed.

Lemma fromParameter_named (parameter : RefOr ParameterObject.t)
  (f : INodeProperties.t) :
  fromParameter' parameter = OK f ->
  exists p,
    RefResolver.resolve (Document.parameters doc) parameter = OK p /\
    name f = Some (ParameterObject.name p) /\
    requiredOrAbsent f.
Proof.
  intros Hf. unfold fromParameter in Hf.
  apply bind_OK in Hf. destruct Hf as [p [Hp Hf]].
  apply bind_OK in Hf. destruct Hf as [sf [Hsf Hf]].
  apply bind_OK in Hf. destruct Hf as [field [Hfield Hf]].
  injection Hf as <-. exists p. split; [exact Hp |].
  split; [| apply requiredOrAbsent_dropFalsyRequired].
  assert (Hname : name field = Some (ParameterObject.name p)).
  { destruct (ParameterObject.in_ p =? "query");
      [injection Hfield as <-; apply (combine_name _ sf); reflexivity |].
    destruct (ParameterObject.in_ p =? "path");
      [injection Hfield as <-; apply (combine_name _ sf); reflexivity |].
    destruct (ParameterObject.in_ p =? "header");
      [injection Hfield as <-; apply (combine_name _ sf); reflexivity
      | discriminate Hfield]. }
  destruct field as [? ? ? ? ? ? [[|] |] ? ? ?]; exact Hname.
Qed.

(** X11: when every parameter resolves, has a schema that resolves and is
    located in the query, the path or a header, [fromParameters] returns
    one field per parameter, in order, each named after its parameter. *)
Theorem fromParameters_one_field_each (parameters : list (RefOr ParameterObject.t)) :
  (forall parameter, In parameter parameters ->
     exists p s,
       RefResolver.resolve (Document.parameters doc) parameter = OK p /\
       resolveSchema doc (ParameterObject.schema p) = OK s /\
       In (ParameterObject.in_ p) ["query"; "path"; "header"]) ->
  exists fields,
    fromParameters' (Some parameters) = OK fields /\
    Forall2
      (fun parameter f =>
         exists p,
           RefResolver.resolve (Document.parameters doc) parameter = OK p /\
           name f = Some (ParameterObject.name p))
      parameters fields.
Proof.
  intros Hall. unfold fromParameters. apply mapM_Forall2.
  intros parameter Hin. destruct (Hall parameter Hin) as (p & s & Hp & Hs & Hloc).
  assert (Hok : exists f, fromParameter' parameter = OK f).
  { rewrite (fromParameter_resolved startCase stringify extractExample doc
               parameter Hp Hs). cbv zeta.
    destruct Hloc as [<- | [<- | [<- | []]]]; simpl; eexists; reflexivity. }
  destruct Hok as [f Hf]. exists f. split; [exact Hf |].
  destruct (fromParameter_named parameter Hf) as (p' & Hp' & Hname & _).
  exists p'. split; assumption.
Qed.

(** X12: [fromParameters] fails with the error of the first parameter that
    fails; what comes after that parameter plays no part. *)
Theorem fromParameters_first_error (before after : list (RefOr ParameterObject.t))
  (parameter : RefOr ParameterObject.t) (e : Error) :
  (forall earlier, In earlier before -> exists f, fromParameter' earlier = OK f) ->
  fromParameter' parameter = Err e ->
  fromParameters' (Some (before ++ parameter :: after)) = Err e.
Proof.
  intros Hbefore He. unfold fromParameters.
  apply mapM_first_error; assumption.
Qed.

(** X13: a JSON body whose schema has no properties and is neither of type
    object nor of type array is refused with [UnsupportedBodySchema]. *)
Theorem fromRequestBody_unsupported_schema (body : RefOr RequestBodyObject.t)
  (b : RequestBodyObject.t) (m : MediaTypeObject.t) (s : SchemaObject.t) :
  RefResolver.resolve (Document.requestBodies doc) body = OK b ->
  lookup "multipart/form-data" (RequestBodyObject.content b) = None ->
  findKey (RequestBodyObject.content b) isJsonKey = Some m ->
  resolveSchema doc (MediaTypeObject.schema m) = OK s ->
  SchemaObject.properties s = None ->
  SchemaObject.type s <> Some "object" ->
  SchemaObject.type s <> Some "array" ->
  fromRequestBody' (Some body) = Err (UnsupportedBodySchema (SchemaObject.type s)).
Proof.
  intros Hb Hmp Hfk Hs Hp Ho Ha.
  rewrite (fromRequestBody_json startCase stringify extractExample doc body Hb Hmp Hfk).
  apply fromJsonContent_unsupported; assumption.
Qed.

Lemma requiredOrAbsent_set_routing (r : option Routing) (f : INodeProperties.t) :
  requiredOrAbsent f -> requiredOrAbsent (set_routing r f).
Proof. intros H. exact H. Qed.

Lemma fromRequestBody_requiredOrAbsent (body : option (RefOr RequestBodyObject.t))
  (fields : list INodeProperties.t) :
  fromRequestBody' body = OK fields ->
  Forall requiredOrAbsent fields.
Proof.
  intros H. destruct body as [body |]; simpl in H;
    [| injection H as <-; constructor].
  apply bind_OK in H. destruct H as [b [_ H]].
  destruct (lookup "multipart/form-data" (RequestBodyObject.content b)) as [m |].
  - unfold fromMultipartFormData in H.
    apply bind_OK in H. destruct H as [s [_ H]].
    destruct (SchemaObject.properties s) as [props |]; [| discriminate H].
    eapply mapM_Forall; [| exact H]. intros [key property] f _ Hf.
    apply bind_OK in Hf. destruct Hf as [ps [_ Hf]].
    apply bind_OK in Hf. destruct Hf as [keys [_ Hf]].
    injection Hf as <-.
    destruct (typeIs (SchemaObject.format ps) "binary");
      apply (requiredOrAbsent_combine [requiredOnly (requiredIncludes s key); keys]).
  - destruct (findKey (RequestBodyObject.content b) isJsonKey) as [m |];
      [| discriminate H].
    unfold fromJsonContent in H.
    apply bind_OK in H. destruct H as [s [_ H]].
    apply bind_OK in H. destruct H as [_ [_ H]].
    apply bind_OK in H. destruct H as [arrayFields [Harr H]].
    apply bind_OK in H. destruct H as [propFields [Hprops H]].
    injection H as <-. apply Forall_app. split.
    + unfold arrayBodyFields in Harr.
      destruct (SchemaObject.items s) as [it |];
        [| injection Harr as <-; constructor].
      destruct (typeIs (SchemaObject.type s) "array");
        [| injection Harr as <-; constructor].
      apply bind_OK in Harr. destruct Harr as [inner [_ Harr]].
      apply bind_OK in Harr. destruct Harr as [keys [_ Harr]].
      injection Harr as <-. constructor; [| constructor].
      apply (requiredOrAbsent_combine [requiredOnly (Some (hasRequired s)); keys]).
    + eapply mapM_Forall; [| exact Hprops]. intros [key property] f _ Hf.
      apply bind_OK in Hf. destruct Hf as [keys [_ Hf]].
      injection Hf as <-.
      destruct (type (combine [requiredOnly (requiredIncludes s key); keys]))
        as [[] |];
        apply (requiredOrAbsent_combine [requiredOnly (requiredIncludes s key); keys]).
Qed.

Lemma parseFields_inv (resourceName operationName : string)
  (operation : OperationObject.t) (fields : list INodeProperties.t) :
  parseFields' resourceName operationName operation = OK fields ->
  exists parameterFields bodyFields,
    fromParameters' (OperationObject.parameters operation) = OK parameterFields /\
    fromRequestBody' (OperationObject.requestBody operation) = OK bodyFields /\
    fields =
      sort sessionFirst
        (map (set_displayOptions (Some (showFor resourceName operationName)))
           (parameterFields ++ bodyFields)).
Proof.
  intros H. unfold parseFields in H.
  apply bind_OK in H. destruct H as [pf [Hpf H]].
  apply bind_OK in H. destruct H as [bf [Hbf H]].
  injection H as <-. exists pf, bf. repeat split; assumption.
Qed.

(** X14: no field of an operation carries [required: false]: the flag is
    [true] or absent on every field [parseFields] returns. *)
Theorem parseFields_required_true_or_absent (resourceName operationName : string)
  (operation : OperationObject.t) (fields : list INodeProperties.t) :
  parseFields' resourceName operationName operation = OK fields ->
  Forall requiredOrAbsent fields.
Proof.
  intros H. destruct (parseFields_inv _ _ _ H) as (pf & bf & Hpf & Hbf & ->).
  rewrite sort_sessionFirst. apply Forall_app.
  assert (Hall : Forall requiredOrAbsent
                   (map (set_displayOptions (Some (showFor resourceName operationName)))
                      (pf ++ bf))).
  { apply Forall_forall. intros f Hin. apply in_map_iff in Hin.
    destruct Hin as [f0 [<- Hin]].
    assert (H0 : requiredOrAbsent f0).
    { apply in_app_or in Hin. destruct Hin as [Hin | Hin].
      - unfold fromParameters in Hpf.
        destruct (OperationObject.parameters operation) as [ps |];
          [| injection Hpf as <-; destruct Hin].
        assert (HF : Forall requiredOrAbsent pf).
        { eapply mapM_Forall; [| exact Hpf]. intros p f1 _ Hf1.
          destruct (fromParameter_named p Hf1) as (_ & _ & _ & Hr). exact Hr. }
        rewrite Forall_forall in HF. apply HF. exact Hin.
      - pose proof (fromRequestBody_requiredOrAbsent _ Hbf) as HF.
        rewrite Forall_forall in HF. apply HF. exact Hin. }
    exact H0. }
  split; apply Forall_filter; exact Hall.
Qed.

(** X15: [parseFields] returns as many fields as the parameters and the body
    compile to, and each of them is shown for the resource and the operation
    it was called with. *)
Theorem parseFields_shown_for_operation (resourceName operationName : string)
  (operation : OperationObject.t) (fields : list INodeProperties.t) :
  parseFields' resourceName operationName operation = OK fields ->
  exists parameterFields bodyFields,
    fromParameters' (OperationObject.parameters operation) = OK parameterFields /\
    fromRequestBody' (OperationObject.requestBody operation) = OK bodyFields /\
    length fields = length parameterFields + length bodyFields /\
    Forall
      (fun f => displayOptions f = Some (DisplayOptions.mk [resourceName] [operationName]))
      fields.
Proof.
  intros H. destruct (parseFields_inv _ _ _ H) as (pf & bf & Hpf & Hbf & ->).
  exists pf, bf. split; [exact Hpf |]. split; [exact Hbf |].
  rewrite sort_sessionFirst. split.
  - rewrite <- (Permutation_length (partition_Permutation isSession _)).
    rewrite length_map, length_app. reflexivity.
  - apply Forall_app.
    assert (Hall : Forall
                     (fun f => displayOptions f =
                               Some (DisplayOptions.mk [resourceName] [operationName]))
                     (map (set_displayOptions (Some (showFor resourceName operationName)))
                        (pf ++ bf))).
    { apply Forall_forall. intros f Hin. apply in_map_iff in Hin.
      destruct Hin as [f0 [<- _]]. reflexivity. }
    split; apply Forall_filter; exact Hall.
Qed.

(** X16: when no compiled field is named "session", [parseFields] returns the
    fields of the parameters followed by those of the body, in the order
    they were compiled in. *)
Theorem parseFields_without_session (resourceName operationName : string)
  (operation : OperationObject.t)
  (parameterFields bodyFields : list INodeProperties.t) :
  fromParameters' (OperationObject.parameters operation) = OK parameterFields ->
  fromRequestBody' (OperationObject.requestBody operation) = OK bodyFields ->
  Forall (fun f => name f <> Some "session") (parameterFields ++ bodyFields) ->
  parseFields' resourceName operationName operation =
  OK (map (set_displayOptions (Some (showFor resourceName operationName)))
        (parameterFields ++ bodyFields)).
Proof.
  intros Hpf Hbf Hno. unfold parseFields. rewrite Hpf, Hbf. cbn [bind].
  rewrite sort_sessionFirst. f_equal.
  assert (Hnone : Forall (fun f => isSession f = false)
                    (map (set_displayOptions (Some (showFor resourceName operationName)))
                       (parameterFields ++ bodyFields))).
  { apply Forall_forall. intros f Hin. apply in_map_iff in Hin.
    destruct Hin as [f0 [<- Hin]]. rewrite Forall_forall in Hno.
    specialize (Hno f0 Hin).
    destruct (isSession (set_displayOptions _ f0)) eqn:Hs; [| reflexivity].
    apply isSession_true in Hs. destruct f0; contradiction. }
  rewrite (filter_none _ Hnone). simpl. apply filter_all.
  apply Forall_forall. intros f Hin. rewrite Forall_forall in Hnone.
  rewrite (Hnone f Hin). reflexivity.
Qed.

End CompilerMore.

(** ** [findKey] *)

(** X17: for a test that rejects the empty key (as every test for a content
    type does; [findKey] reads an empty key as no key), [findKey] returns
    the value of the first key that passes the test, and nothing exactly
    when no key passes it. *)
Theorem findKey_first_match {A} (obj : list (string * A)) (test : string -> bool) :
  test "" = false ->
  (forall a,
     findKey obj test = Some a <->
     exists before key after,
       obj = before ++ (key, a) :: after /\
       test key = true /\
       key <> "" /\
       forall kv, In kv before -> test (fst kv) = false) /\
  (findKey obj test = None <-> forall kv, In kv obj -> test (fst kv) = false).
Proof.
  intros Hempty. split; [| apply findKey_none].
  intros a. split.
  - intros H. destruct (findKey_first _ _ H) as (before & key & after & Hobj & Hkey & Hb).
    exists before, key, after. repeat split; try assumption.
    intros ->. congruence.
  - intros (before & key & after & -> & Hkey & _ & Hbefore).
    apply findKey_at_first; assumption.
Qed.

(** ** [parseOperation] *)

Section ParseOperationFacts.

Variable startCase : JsVal -> string.
Variable stringify : JsVal -> string.
Variable extractExample : SchemaObject.t -> JsVal.
Variable doc : Document.t.
Variable toUpperCase : string -> string.
Variable addUriAfterOperation : bool.

Local Abbreviation parseFields' :=
  (parseFields startCase stringify extractExample doc).
Local Abbreviation parseOperation' :=
  (parseOperation startCase stringify extractExample doc toUpperCase
     addUriAfterOperation).

Lemma parseFields_displayOptions (resourceName operationName : string)
  (operation : OperationObject.t) (fields : list INodeProperties.t) :
  parseFields' resourceName operationName operation = OK fields ->
  Forall
    (fun f => displayOptions f = Some (DisplayOptions.mk [resourceName] [operationName]))
    fields.
Proof.
  intros H.
  destruct (parseFields_inv startCase stringify extractExample doc _ _ _ H)
    as (pf & bf & _ & _ & ->).
  rewrite sort_sessionFirst. apply Forall_app.
  split; apply Forall_filter; apply Forall_forall; intros f Hin;
    apply in_map_iff in Hin; destruct Hin as [f0 [<- _]]; reflexivity.
Qed.

(** X18: the option [parseOperation] returns has the start-cased short
    operation id as its name and as its value, and every field returned with
    it, the notice included, is shown for exactly this resource and this
    operation value. *)
Theorem parseOperation_fields_shown_for_option (resourceName : string)
  (operation : OperationDetails.t) (uri method : string)
  (entry : OperationOption.t) (fields : list OperationField) :
  parseOperation' resourceName operation uri method = OK (entry, fields) ->
  OperationOption.value entry =
    startCase (JStr (shortOperationId (OperationDetails.operationId operation))) /\
  OperationOption.name entry = OperationOption.value entry /\
  Forall (shownFor resourceName (OperationOption.value entry)) fields.
Proof.
  intros H. unfold parseOperation in H.
  apply bind_OK in H. destruct H as [fs [Hfs H]].
  injection H as <- <-. cbn [OperationOption.value OperationOption.name].
  split; [reflexivity |]. split; [reflexivity |].
  pose proof (parseFields_displayOptions _ _ _ Hfs) as Hshown.
  assert (Hcompiled :
            Forall
              (shownFor resourceName
                 (startCase
                    (JStr (shortOperationId (OperationDetails.operationId operation)))))
              (map Compiled fs)).
  { apply Forall_forall. intros field Hin. apply in_map_iff in Hin.
    destruct Hin as [f [<- Hin]]. rewrite Forall_forall in Hshown.
    exact (Hshown f Hin). }
  destruct addUriAfterOperation; [constructor; [reflexivity |] |]; exact Hcompiled.
Qed.

(** X19: when [parseFields] succeeds, [parseOperation] returns its fields in
    the same order, behind the notice when [addUriAfterOperation] is set (so
    the notice comes before a "session" field) and alone otherwise.  The
    notice shows the upper-cased method and the URI as given; the URL of the
    option is the URI with its placeholders rewritten, behind an [=]. *)
Theorem parseOperation_notice_then_fields (resourceName : string)
  (operation : OperationDetails.t) (uri method : string)
  (compiled : list INodeProperties.t) :
  parseFields' resourceName
    (startCase (JStr (shortOperationId (OperationDetails.operationId operation))))
    (OperationDetails.operation operation) = OK compiled ->
  exists entry fields,
    parseOperation' resourceName operation uri method = OK (entry, fields) /\
    OperationOption.method entry = toUpperCase method /\
    OperationOption.url entry = ("=" ++ replaceToParameter uri)%string /\
    (addUriAfterOperation = false -> fields = map Compiled compiled) /\
    (addUriAfterOperation = true ->
     exists notice,
       fields = Notice notice :: map Compiled compiled /\
       NoticeField.displayName notice = (toUpperCase method ++ " " ++ uri)%string).
Proof.
  intros H. unfold parseOperation. rewrite H. cbn [bind].
  eexists. eexists. split; [reflexivity |].
  cbn [OperationOption.method OperationOption.url].
  split; [reflexivity |]. split; [reflexivity |].
  destruct addUriAfterOperation; split; intros Hflag; try discriminate Hflag.
  - eexists. split; reflexivity.
  - reflexivity.
Qed.

(** X20: the description of the option is the description of the operation,
    or its summary when the description is missing or empty, or the empty
    string when both are; the action is the summary, or the operation name
    when the summary is missing or empty. *)
Theorem parseOperation_description_fallback (resourceName : string)
  (operation : OperationDetails.t) (uri method : string)
  (entry : OperationOption.t) (fields : list OperationField) :
  parseOperation' resourceName operation uri method = OK (entry, fields) ->
  let present (text : Datatypes.option string) (s : string) := text = Some s /\ s <> "" in
  let missing (text : Datatypes.option string) := text = None \/ text = Some "" in
  (forall d, present (OperationDetails.description operation) d ->
     OperationOption.description entry = d) /\
  (forall s, missing (OperationDetails.description operation) ->
     present (OperationDetails.summary operation) s ->
     OperationOption.description entry = s) /\
  (missing (OperationDetails.description operation) ->
   missing (OperationDetails.summary operation) ->
   OperationOption.description entry = "") /\
  (forall s, present (OperationDetails.summary operation) s ->
     OperationOption.action entry = s) /\
  (missing (OperationDetails.summary operation) ->
   OperationOption.action entry = OperationOption.name entry).
Proof.
  intros H. unfold parseOperation in H.
  apply bind_OK in H. destruct H as [fs [_ H]].
  injection H as <- _. cbv zeta.
  cbn [OperationOption.description OperationOption.action OperationOption.name].
  unfold orString.
  repeat apply conj.
  - intros d [-> Hd]. apply String.eqb_neq in Hd. rewrite Hd. reflexivity.
  - intros s [-> | ->] [-> Hs]; apply String.eqb_neq in Hs; rewrite Hs; reflexivity.
  - intros [-> | ->] [-> | ->]; reflexivity.
  - intros s [-> Hs]. apply String.eqb_neq in Hs. rewrite Hs. reflexivity.
  - intros [-> | ->]; reflexivity.
Qed.

End ParseOperationFacts.

(** * More closed examples *)

Local Abbreviation sampleFromParameters :=
  (fromParameters Sample.startCase Sample.stringify Sample.extractExample Sample.doc).
Local Abbreviation sampleParseOperation :=
  (parseOperation Sample.startCase Sample.stringify Sample.extractExample
     Sample.doc SampleParser.toUpperCase).

(** A URI without placeholder. *)
Lemma replaceToParameter_unchanged_witness :
  replaceToParameter "/pets" = "/pets".
Proof.
  apply replaceToParameter_unchanged. left. simpl.
  intros H. repeat (destruct H as [H | H]; [discriminate H |]). exact H.
Defined.

(** The template of the comment above [replaceToParameter], with a second
    placeholder. *)
Lemma replaceToParameter_placeholder_witness :
  replaceToParameter "/api/entities/{entity}/parts/{part}" =
  ("/api/entities/" ++ parameterExpr "entity" ++
   replaceToParameter "/parts/{part}")%string.
Proof.
  apply (replaceToParameter_placeholder "/api/entities/" "entity" "/parts/{part}");
    simpl; intros H;
    repeat (destruct H as [H | H]; [discriminate H |]); exact H.
Defined.

(** The whole of that template. *)
Example replaceToParameter_template :
  replaceToParameter "/api/entities/{entity}/parts/{part}" =
  ("/api/entities/" ++ parameterExpr "entity" ++ "/parts/" ++
   parameterExpr "part")%string.
Proof. reflexivity. Qed.

(** A brace that is never closed stays, also behind a placeholder. *)
Example replaceToParameter_unclosed :
  replaceToParameter "/a/{b}/{c" = ("/a/" ++ parameterExpr "b" ++ "/{c")%string.
Proof. reflexivity. Qed.

(** [Pets_create_one] loses [Pets_]; [list] and [Pets_] stay whole. *)
Lemma shortOperationId_cases_witness :
  shortOperationId "Pets_create_one" = "create_one" /\
  shortOperationId "list" = "list" /\
  shortOperationId "Pets_" = "Pets_".
Proof.
  split; [| split].
  - apply (proj2 (shortOperationId_cases "Pets_create_one") "Pets" "create_one").
    + reflexivity.
    + simpl. intros H.
      repeat (destruct H as [H | H]; [discriminate H |]). exact H.
  - apply (proj1 (shortOperationId_cases "list")). simpl. intros H.
    repeat (destruct H as [H | H]; [discriminate H |]). exact H.
  - apply (proj2 (shortOperationId_cases "Pets_") "Pets" "").
    + reflexivity.
    + simpl. intros H.
      repeat (destruct H as [H | H]; [discriminate H |]). exact H.
Defined.

(** The options of [{ type: 'string', enum: ['a', 'b'] }]. *)
Lemma fromSchema_enum_options_witness :
  exists f opts,
    sampleFromSchema (Inline Sample.enumString) = OK f /\
    options f = Some opts /\
    map INodePropertyOptions.value opts = [JStr "a"; JStr "b"].
Proof.
  destruct (@fromSchema_enum_options Sample.startCase Sample.stringify
              Sample.extractExample Sample.doc (Inline Sample.enumString)
              Sample.enumString (JStr "a") [JStr "b"] eq_refl eq_refl)
    as (f & opts & Hf & _ & Hopts & Hvalues & _).
  exists f, opts. repeat split; assumption.
Defined.


(** The object schema with the example [{}]. *)
Lemma fromSchema_json_default_is_text_witness :
  exists f text,
    sampleFromSchema (Inline SampleParser.exampleObject) = OK f /\
    default f = JStr text.
Proof.
  eexists. 
  destruct (@fromSchema_json_default_is_text Sample.startCase Sample.stringify
              Sample.extractExample Sample.doc
              (Inline SampleParser.exampleObject) _ eq_refl eq_refl)
    as [text Htext].
  exists text. split; [reflexivity | exact Htext].
Defined.

(** [{ type: 'null' }] *)
Lemma fromSchema_unknown_type_witness :
  exists f,
    sampleFromSchema (Inline SampleParser.nullSchema) = OK f /\
    type f = None /\ default f = JUndefined.
Proof.
  apply (@fromSchema_unknown_type Sample.startCase Sample.stringify
           Sample.extractExample Sample.doc
           (Inline SampleParser.nullSchema) SampleParser.nullSchema "null").
  - reflexivity.
  - reflexivity.
  - simpl. intros H.
    repeat (destruct H as [H | H]; [discriminate H |]). exact H.
  - left. reflexivity.
Defined.

(** The enumerated string schema again. *)
Lemma fromSchema_leaves_unset_witness :
  exists f,
    sampleFromSchema (Inline Sample.enumString) = OK f /\
    name f = None /\ required f = None /\ routing f = None.
Proof.
  eexists. split; [reflexivity |].
  destruct (@fromSchema_leaves_unset Sample.startCase Sample.stringify
              Sample.extractExample Sample.doc (Inline Sample.enumString) _ eq_refl)
    as (H1 & _ & H3 & H4 & _).
  repeat split; assumption.
Defined.

(** The three parameters of the sample operation. *)
Lemma fromParameters_one_field_each_witness :
  exists fields,
    sampleFromParameters
      (Some [Inline Sample.limitParameter; Inline Sample.sessionParameter;
             Inline Sample.idParameter]) = OK fields /\
    length fields = 3.
Proof.
  destruct (@fromParameters_one_field_each Sample.startCase Sample.stringify
              Sample.extractExample Sample.doc
              [Inline Sample.limitParameter; Inline Sample.sessionParameter;
               Inline Sample.idParameter])
    as (fields & Hf & HF).
  - intros parameter [<- | [<- | [<- | []]]];
      eexists; eexists; (split; [reflexivity |]); (split; [reflexivity |]);
      simpl; tauto.
  - exists fields. split; [exact Hf |].
    apply Forall2_length in HF. symmetry. exact HF.
Defined.

(** The cookie parameter stops the loop before the broken reference is
    looked at. *)
Lemma fromParameters_first_error_witness :
  sampleFromParameters (Some SampleParser.badParameters) =
  Err (UnsupportedParameterLocation "cookie").
Proof.
  apply (@fromParameters_first_error Sample.startCase Sample.stringify
           Sample.extractExample Sample.doc
           [Inline Sample.limitParameter]
           [Ref "#/components/parameters/missing"]
           (Inline Sample.cookieParameter)).
  - intros earlier [<- | []]. eexists. reflexivity.
  - reflexivity.
Defined.

(** A JSON body of string type. *)
Lemma fromRequestBody_unsupported_schema_witness :
  sampleFromRequestBody (Some (Inline (Sample.jsonBody (Sample.typed "string")))) =
  Err (UnsupportedBodySchema (Some "string")).
Proof.
  apply (@fromRequestBody_unsupported_schema Sample.startCase Sample.stringify
           Sample.extractExample Sample.doc
           (Inline (Sample.jsonBody (Sample.typed "string")))
           (Sample.jsonBody (Sample.typed "string"))
           (Sample.media (Sample.typed "string")) (Sample.typed "string"));
    try reflexivity; discriminate.
Defined.

(** The sample operation: [limit] declares nothing, [id] declares
    [required: false] and is a path parameter, [active] is not a required
    name. *)
Lemma parseFields_required_true_or_absent_witness :
  exists fields,
    sampleParseFields "pets" "Create" Sample.operation = OK fields /\
    map required fields = [None; None; Some true; Some true; None] /\
    Forall requiredOrAbsent fields.
Proof.
  eexists. split; [reflexivity |]. split; [reflexivity |].
  apply (@parseFields_required_true_or_absent Sample.startCase Sample.stringify
           Sample.extractExample Sample.doc "pets" "Create" Sample.operation).
  reflexivity.
Defined.

(** The sample operation has three parameters and two body properties. *)
Lemma parseFields_shown_for_operation_witness :
  exists fields,
    sampleParseFields "pets" "Create" Sample.operation = OK fields /\
    length fields = 5 /\
    Forall (fun f => displayOptions f = Some (DisplayOptions.mk ["pets"] ["Create"]))
      fields.
Proof.
  eexists. split; [reflexivity |].
  destruct (@parseFields_shown_for_operation Sample.startCase Sample.stringify
              Sample.extractExample Sample.doc "pets" "Create" Sample.operation
              _ eq_refl)
    as (pf & bf & _ & _ & _ & Hshown).
  split; [reflexivity | exact Hshown].
Defined.

(** The sample operation without its [session] parameter. *)
Lemma parseFields_without_session_witness :
  match sampleParseFields "pets" "Create" SampleParser.plainOperation with
  | OK fields => map name fields
  | Err _ => []
  end = [Some "limit"; Some "id"; Some "name"; Some "active"].
Proof.
  rewrite (@parseFields_without_session Sample.startCase Sample.stringify
             Sample.extractExample Sample.doc "pets" "Create"
             SampleParser.plainOperation _ _ eq_refl eq_refl).
  - reflexivity.
  - repeat constructor; discriminate.
Defined.

(** [Pets_create_one] on [POST /pets/{id}], with the notice. *)
Lemma parseOperation_fields_shown_for_option_witness :
  exists entry fields,
    sampleParseOperation true "pets" SampleParser.createOne "/pets/{id}" "post" =
      OK (entry, fields) /\
    OperationOption.value entry = "create_one" /\
    Forall (shownFor "pets" "create_one") fields.
Proof.
  eexists. eexists. split; [reflexivity |].
  destruct (@parseOperation_fields_shown_for_option Sample.startCase Sample.stringify
              Sample.extractExample Sample.doc SampleParser.toUpperCase true
              "pets" SampleParser.createOne "/pets/{id}" "post" _ _ eq_refl)
    as (Hvalue & _ & Hshown).
  split; [reflexivity | exact Hshown].
Defined.

(** The same call: the notice, then [session], then the other fields. *)
Lemma parseOperation_notice_then_fields_witness :
  exists entry notice compiled,
    sampleParseOperation true "pets" SampleParser.createOne "/pets/{id}" "post" =
      OK (entry, Notice notice :: map Compiled compiled) /\
    NoticeField.displayName notice = "POST /pets/{id}" /\
    OperationOption.url entry = ("=/pets/" ++ parameterExpr "id")%string /\
    map name compiled =
      [Some "session"; Some "limit"; Some "id"; Some "name"; Some "active"].
Proof.
  destruct (@parseOperation_notice_then_fields Sample.startCase Sample.stringify
              Sample.extractExample Sample.doc SampleParser.toUpperCase true
              "pets" SampleParser.createOne "/pets/{id}" "post" _ eq_refl)
    as (entry & fields & Hrun & _ & Hurl & _ & Hnotice).
  destruct (Hnotice eq_refl) as (notice & -> & Hname).
  exists entry, notice. eexists.
  split; [exact Hrun |]. split; [exact Hname |]. split; [exact Hurl |].
  reflexivity.
Defined.

(** The same call: the description is empty, so the summary stands in. *)
Lemma parseOperation_description_fallback_witness :
  exists entry fields,
    sampleParseOperation true "pets" SampleParser.createOne "/pets/{id}" "post" =
      OK (entry, fields) /\
    OperationOption.description entry = "Create a pet" /\
    OperationOption.action entry = "Create a pet".
Proof.
  eexists. eexists. split; [reflexivity |].
  destruct (@parseOperation_description_fallback Sample.startCase Sample.stringify
              Sample.extractExample Sample.doc SampleParser.toUpperCase true
              "pets" SampleParser.createOne "/pets/{id}" "post" _ _ eq_refl)
    as (_ & Hsummary & _ & Haction & _).
  split.
  - apply Hsummary; [right; reflexivity | split; [reflexivity | discriminate]].
  - apply Haction. split; [reflexivity | discriminate].
Defined.

(** The JSON content of the mixed sample body is found behind the plain
    text. *)
Lemma findKey_first_match_witness :
  findKey (RequestBodyObject.content Sample.mixedBody) isJsonKey =
  Some (Sample.media Sample.personSchema).
Proof.
  apply (proj1 (@findKey_first_match _ (RequestBodyObject.content Sample.mixedBody)
                  isJsonKey eq_refl)).
  exists [("text/plain", Sample.media (Sample.typed "string"))],
    "application/json; charset=utf-8",
    [("application/json", Sample.media Sample.stringArraySchema)].
  split; [reflexivity |]. split; [reflexivity |]. split; [discriminate |].
  intros kv [<- | []]. reflexivity.
Defined.

(** * Unusual request bodies *)

(** C5 at a body whose labels are [text/x-application/json-seq] and, after
    it, [application/json].  The first label does not start with
    application/json, yet the unanchored pattern accepts it: its content is
    compiled and not that of the JSON label, and a body with that label
    alone is compiled too instead of being refused. *)
Theorem fromRequestBody_json_label_not_a_prefix :
  String.prefix "application/json" "text/x-application/json-seq" = false /\
  sampleFromRequestBody (Some (Inline SampleBodies.sequenceBody)) =
    sampleFromJsonContent (Sample.media Sample.personSchema) /\
  sampleFromRequestBody (Some (Inline SampleBodies.sequenceBody)) <>
    sampleFromJsonContent (Sample.media Sample.stringArraySchema) /\
  (exists fields,
     sampleFromRequestBody (Some (Inline SampleBodies.sequenceOnlyBody)) = OK fields) /\
  sampleFromRequestBody (Some (Inline SampleBodies.sequenceOnlyBody)) <>
    Err UnsupportedBodyContentType.
Proof.
  split; [reflexivity |]. split; [reflexivity |].
  split; [discriminate |]. split; [eexists; reflexivity | discriminate].
Qed.

